(** * QDirStat main window: the scan-session lifecycle

    A shallow embedding of the session logic of [MainWindow.cpp]: the
    busy/idle display transitions, the future selection applied when a
    scan completes, the one-shot tree-expand timer, the arming flag of
    the directory-permissions warning, the history reset on a new open
    and the enablement of the user commands.

    The window is modelled as a record of its own members and of the
    state it reads back from its collaborators.  Slots are computations
    in a state monad over that record.  Every call that leaves the
    window (widgets, timers, the scanning engine) is recorded, in
    program order, in the [log] field. *)

From Stdlib Require Import String List Bool ZArith Lia.
Import ListNotations.

Local Open Scope string_scope.
Local Open Scope Z_scope.

(** ** Tree items *)

(** [FileInfo]: the item attributes the window asks for.  [url] stands
    for the item's stable path identity; the boolean fields are the
    item-kind predicates of the same name. *)
Module FileInfo.
Record t : Type := mk {
  url            : string;
  isDir          : bool;
  isPkgInfo      : bool;
  isPseudoDir    : bool;
  isExcluded     : bool;
  isMountPoint   : bool;
  treeLevel      : Z;
  errSubDirCount : Z
}.
End FileInfo.

(** A [FileInfo *] that may be 0. *)
Definition FileInfoPtr : Type := option FileInfo.t.

(** [if ( p )] on a pointer. *)
Definition notNull {A : Type} (p : option A) : bool :=
  match p with Some _ => true | None => false end.

(** [p->f()] in a position where an earlier conjunct of the same [&&]
    chain already made sure that [p] is not 0; [false] fills the branch
    that the short-circuit never evaluates. *)
Definition deref (p : FileInfoPtr) (f : FileInfo.t -> bool) : bool :=
  match p with Some i => f i | None => false end.

(** [FileInfoSet]: the selected items.  Only [first], [size], [isEmpty]
    and the two [contains...] queries are used by the window. *)
Module FileInfoSet.
Definition t : Type := list FileInfo.t.

Definition first (s : t) : FileInfoPtr := hd_error s.
Definition size (s : t) : Z := Z.of_nat (length s).
Definition isEmpty (s : t) : bool :=
  match s with [] => true | _ :: _ => false end.
Definition containsPseudoDir (s : t) : bool := existsb FileInfo.isPseudoDir s.
Definition containsPkg (s : t) : bool := existsb FileInfo.isPkgInfo s.
End FileInfoSet.

(** ** The directory tree as the window sees it *)

(** The tree belongs to the scanning engine.  The window reads its URL,
    its busy flag and its items; [items] lists them in tree order, so
    the first one is the first toplevel item. *)
Module DirTree.
Record t : Type := mk {
  url    : string;
  isBusy : bool;
  items  : list FileInfo.t
}.

Definition firstToplevel (tr : t) : FileInfoPtr := hd_error (items tr).

(** [locate]: look an item up by its URL. *)
Definition locate (tr : t) (u : string) : FileInfoPtr :=
  find (fun i => String.eqb (FileInfo.url i) u) (items tr).
End DirTree.

(** ** The selection model *)

(** Modelled from the spec: the selection model (its source is not part
    of [MainWindow.cpp]) holds the current item, the multi-selection
    and the current branch, the latter being the tree position that is
    considered active and distinct from the selection; so
    [setCurrentBranch] changes the current branch and nothing else.
    The change signals of the selection model are events of their own
    (see [SigSelectionChanged] and [SigCurrentItemChanged] below);
    whether a call of [setCurrentBranch] makes the selection model
    emit one is not decided here. *)
Module SelectionModel.
Record t : Type := mk {
  currentItem   : FileInfoPtr;
  currentBranch : FileInfoPtr;
  selectedItems : FileInfoSet.t
}.

Definition setCurrentBranch (item : FileInfo.t) (s : t) : t :=
  {| currentItem   := currentItem s;
     currentBranch := Some item;
     selectedItems := selectedItems s |}.
End SelectionModel.

(** ** The future selection *)

(** Modelled from the spec: the class [FutureSelection] (its source is
    not part of [MainWindow.cpp]).  It holds an optional target path,
    the empty string meaning that no selection is pending, and the
    root-fallback switch.  [subtree] is the spec's [resolve]: look the
    target up by path in the tree at hand; when that fails, yield the
    scan root if the fallback is switched on and nothing otherwise. *)
Module FutureSelection.
Record t : Type := mk {
  targetPath      : string;
  useRootFallback : bool
}.

Definition isEmpty (f : t) : bool := String.eqb (targetPath f) "".

Definition clear (f : t) : t :=
  {| targetPath := ""; useRootFallback := useRootFallback f |}.

Definition set (item : FileInfoPtr) (f : t) : t :=
  {| targetPath := match item with
                   | Some i => FileInfo.url i
                   | None => ""
                   end;
     useRootFallback := useRootFallback f |}.

Definition setUseRootFallback (b : bool) (f : t) : t :=
  {| targetPath := targetPath f; useRootFallback := b |}.

Definition subtree (f : t) (tr : DirTree.t) : FileInfoPtr :=
  match DirTree.locate tr (targetPath f) with
  | Some i => Some i
  | None => if useRootFallback f then DirTree.firstToplevel tr else None
  end.
End FutureSelection.

(** ** The browsing history *)

(** Modelled from the spec: the class [HistoryButtons] (not part of
    [MainWindow.cpp]).  A linear stack of visited locations with a
    cursor; recording a location drops what lies after the cursor and
    appends; [clearHistory] drops everything. *)
Module HistoryButtons.
Record t : Type := mk {
  entries : list string;
  cursor  : nat
}.

Definition empty : t := {| entries := []; cursor := 0%nat |}.

Definition clearHistory (h : t) : t := empty.

Definition addToHistory (item : FileInfoPtr) (h : t) : t :=
  match item with
  | None => h
  | Some i =>
      let kept := firstn (S (cursor h)) (entries h) in
      {| entries := kept ++ [FileInfo.url i]; cursor := length kept |}
  end.
End HistoryButtons.

(** ** The user commands *)

Inductive Action : Type :=
| actionStopReading
| actionRefreshAll
| actionAskReadCache
| actionAskWriteCache
| actionCopyPathToClipboard
| actionGoUp
| actionGoToToplevel
| actionMoveToTrash
| actionRefreshSelected
| actionContinueReadingAtMountPoint
| actionReadExcludedDirectory
| actionFileSizeStats
| actionFileTypeStats
| actionFileAgeStats
| actionTreemapAsSidePanel
| actionTreemapZoomIn
| actionTreemapZoomOut
| actionResetTreemapZoom
| actionTreemapRebuild.

Definition Action_eq_dec (a b : Action) : {a = b} + {a <> b}.
Proof. decide equality. Defined.

(** ** Calls that leave the window *)

Inductive DataCol : Type := NameCol | PercentNumCol.
Inductive SortOrder : Type := AscendingOrder | DescendingOrder.

Inductive Call : Type :=
| QAction_setEnabled (a : Action) (b : bool)
| HistoryButtons_updateActions
| HistoryButtons_clearHistory
| TreemapView_disable
| TreemapView_enable
| UnreadableDirsWindow_close
| UpdateTimer_start
| UpdateTimer_stop
| TreeExpandTimer_start (msec : Z)
| TreeExpandTimer_stop
| StopWatch_start
| DirTreeView_sortByColumn (col : DataCol) (order : SortOrder)
| DirTreeView_collapseAll
| DirTreeView_expandToDepth (depth : Z)
| DirTreeView_setExpanded (item : FileInfo.t) (expanded : bool)
| SelectionModel_setCurrentBranch (item : FileInfo.t)
| FileDetailsView_showDetails (item : FileInfoPtr)
| FileDetailsView_showDetailsSet (sel : FileInfoSet.t)
| StatusBar_showFinished
| StatusBar_showAborted
| StatusBar_showReadingAborted
| StatusBar_showSummary
| BreadcrumbNavigator_setPath (item : FileInfoPtr)
| MessagePanel_add
| MainWindow_updateWindowTitle (url : string)
| ErrorPopup_exec
| DirTree_reset
| DirTree_setCrossFilesystems (b : bool)
| DirTree_sendFinished
| DirTree_abortReading
| DirTree_readCache (fileName : string)
| DirTree_setUnpkgFilters
| DirTreeModel_openUrl (url : string)
| DirTreeModel_readPkg (url : string)
| DirTreeModel_refreshSelected
| DirTreeModel_clear.

(** ** The window *)

(** What [treemapView] answers when asked: the answers as of the
    view's last [treemapChanged()] report (see [SigTreemapChanged]
    below).  What [enable()] and [disable()] do to them happens inside
    [TreemapView], which is not part of [MainWindow.cpp]. *)
Record TreemapView : Type := mkTreemapView {
  tm_isVisible  : bool;
  tm_canZoomIn  : bool;
  tm_canZoomOut : bool
}.

Record MainWindow : Type := mkMainWindow {
  dirTree                      : DirTree.t;
  selectionModel               : SelectionModel.t;
  _futureSelection             : FutureSelection.t;
  _historyButtons              : HistoryButtons.t;
  _enableDirPermissionsWarning : bool;
  (** the three [QPointer]s and timers: [true] = not 0 / running *)
  _dirPermissionsWarning       : bool;
  _unreadableDirsWindow        : bool;
  _updateTimer                 : bool;
  _treeExpandTimer             : bool;
  isEnabled                    : Action -> bool;
  treemapView                  : TreemapView;
  fileDetailsView_isVisible    : bool;
  actionShowTreemap_isChecked  : bool;
  primaryPkgManager            : bool;
  log                          : list Call
}.

(** Field updates. *)

Definition set_dirTree (v : DirTree.t) (w : MainWindow) : MainWindow :=
  {| dirTree := v;
     selectionModel := selectionModel w;
     _futureSelection := _futureSelection w;
     _historyButtons := _historyButtons w;
     _enableDirPermissionsWarning := _enableDirPermissionsWarning w;
     _dirPermissionsWarning := _dirPermissionsWarning w;
     _unreadableDirsWindow := _unreadableDirsWindow w;
     _updateTimer := _updateTimer w;
     _treeExpandTimer := _treeExpandTimer w;
     isEnabled := isEnabled w;
     treemapView := treemapView w;
     fileDetailsView_isVisible := fileDetailsView_isVisible w;
     actionShowTreemap_isChecked := actionShowTreemap_isChecked w;
     primaryPkgManager := primaryPkgManager w;
     log := log w |}.

Definition set_selectionModel (v : SelectionModel.t) (w : MainWindow) : MainWindow :=
  {| dirTree := dirTree w;
     selectionModel := v;
     _futureSelection := _futureSelection w;
     _historyButtons := _historyButtons w;
     _enableDirPermissionsWarning := _enableDirPermissionsWarning w;
     _dirPermissionsWarning := _dirPermissionsWarning w;
     _unreadableDirsWindow := _unreadableDirsWindow w;
     _updateTimer := _updateTimer w;
     _treeExpandTimer := _treeExpandTimer w;
     isEnabled := isEnabled w;
     treemapView := treemapView w;
     fileDetailsView_isVisible := fileDetailsView_isVisible w;
     actionShowTreemap_isChecked := actionShowTreemap_isChecked w;
     primaryPkgManager := primaryPkgManager w;
     log := log w |}.

Definition set_futureSelection (v : FutureSelection.t) (w : MainWindow) : MainWindow :=
  {| dirTree := dirTree w;
     selectionModel := selectionModel w;
     _futureSelection := v;
     _historyButtons := _historyButtons w;
     _enableDirPermissionsWarning := _enableDirPermissionsWarning w;
     _dirPermissionsWarning := _dirPermissionsWarning w;
     _unreadableDirsWindow := _unreadableDirsWindow w;
     _updateTimer := _updateTimer w;
     _treeExpandTimer := _treeExpandTimer w;
     isEnabled := isEnabled w;
     treemapView := treemapView w;
     fileDetailsView_isVisible := fileDetailsView_isVisible w;
     actionShowTreemap_isChecked := actionShowTreemap_isChecked w;
     primaryPkgManager := primaryPkgManager w;
     log := log w |}.

Definition set_historyButtons (v : HistoryButtons.t) (w : MainWindow) : MainWindow :=
  {| dirTree := dirTree w;
     selectionModel := selectionModel w;
     _futureSelection := _futureSelection w;
     _historyButtons := v;
     _enableDirPermissionsWarning := _enableDirPermissionsWarning w;
     _dirPermissionsWarning := _dirPermissionsWarning w;
     _unreadableDirsWindow := _unreadableDirsWindow w;
     _updateTimer := _updateTimer w;
     _treeExpandTimer := _treeExpandTimer w;
     isEnabled := isEnabled w;
     treemapView := treemapView w;
     fileDetailsView_isVisible := fileDetailsView_isVisible w;
     actionShowTreemap_isChecked := actionShowTreemap_isChecked w;
     primaryPkgManager := primaryPkgManager w;
     log := log w |}.

Definition set_enableDirPermissionsWarning (v : bool) (w : MainWindow) : MainWindow :=
  {| dirTree := dirTree w;
     selectionModel := selectionModel w;
     _futureSelection := _futureSelection w;
     _historyButtons := _historyButtons w;
     _enableDirPermissionsWarning := v;
     _dirPermissionsWarning := _dirPermissionsWarning w;
     _unreadableDirsWindow := _unreadableDirsWindow w;
     _updateTimer := _updateTimer w;
     _treeExpandTimer := _treeExpandTimer w;
     isEnabled := isEnabled w;
     treemapView := treemapView w;
     fileDetailsView_isVisible := fileDetailsView_isVisible w;
     actionShowTreemap_isChecked := actionShowTreemap_isChecked w;
     primaryPkgManager := primaryPkgManager w;
     log := log w |}.

Definition set_dirPermissionsWarning (v : bool) (w : MainWindow) : MainWindow :=
  {| dirTree := dirTree w;
     selectionModel := selectionModel w;
     _futureSelection := _futureSelection w;
     _historyButtons := _historyButtons w;
     _enableDirPermissionsWarning := _enableDirPermissionsWarning w;
     _dirPermissionsWarning := v;
     _unreadableDirsWindow := _unreadableDirsWindow w;
     _updateTimer := _updateTimer w;
     _treeExpandTimer := _treeExpandTimer w;
     isEnabled := isEnabled w;
     treemapView := treemapView w;
     fileDetailsView_isVisible := fileDetailsView_isVisible w;
     actionShowTreemap_isChecked := actionShowTreemap_isChecked w;
     primaryPkgManager := primaryPkgManager w;
     log := log w |}.

Definition set_unreadableDirsWindow (v : bool) (w : MainWindow) : MainWindow :=
  {| dirTree := dirTree w;
     selectionModel := selectionModel w;
     _futureSelection := _futureSelection w;
     _historyButtons := _historyButtons w;
     _enableDirPermissionsWarning := _enableDirPermissionsWarning w;
     _dirPermissionsWarning := _dirPermissionsWarning w;
     _unreadableDirsWindow := v;
     _updateTimer := _updateTimer w;
     _treeExpandTimer := _treeExpandTimer w;
     isEnabled := isEnabled w;
     treemapView := treemapView w;
     fileDetailsView_isVisible := fileDetailsView_isVisible w;
     actionShowTreemap_isChecked := actionShowTreemap_isChecked w;
     primaryPkgManager := primaryPkgManager w;
     log := log w |}.

Definition set_updateTimer (v : bool) (w : MainWindow) : MainWindow :=
  {| dirTree := dirTree w;
     selectionModel := selectionModel w;
     _futureSelection := _futureSelection w;
     _historyButtons := _historyButtons w;
     _enableDirPermissionsWarning := _enableDirPermissionsWarning w;
     _dirPermissionsWarning := _dirPermissionsWarning w;
     _unreadableDirsWindow := _unreadableDirsWindow w;
     _updateTimer := v;
     _treeExpandTimer := _treeExpandTimer w;
     isEnabled := isEnabled w;
     treemapView := treemapView w;
     fileDetailsView_isVisible := fileDetailsView_isVisible w;
     actionShowTreemap_isChecked := actionShowTreemap_isChecked w;
     primaryPkgManager := primaryPkgManager w;
     log := log w |}.

Definition set_treeExpandTimer (v : bool) (w : MainWindow) : MainWindow :=
  {| dirTree := dirTree w;
     selectionModel := selectionModel w;
     _futureSelection := _futureSelection w;
     _historyButtons := _historyButtons w;
     _enableDirPermissionsWarning := _enableDirPermissionsWarning w;
     _dirPermissionsWarning := _dirPermissionsWarning w;
     _unreadableDirsWindow := _unreadableDirsWindow w;
     _updateTimer := _updateTimer w;
     _treeExpandTimer := v;
     isEnabled := isEnabled w;
     treemapView := treemapView w;
     fileDetailsView_isVisible := fileDetailsView_isVisible w;
     actionShowTreemap_isChecked := actionShowTreemap_isChecked w;
     primaryPkgManager := primaryPkgManager w;
     log := log w |}.

Definition set_isEnabled (v : Action -> bool) (w : MainWindow) : MainWindow :=
  {| dirTree := dirTree w;
     selectionModel := selectionModel w;
     _futureSelection := _futureSelection w;
     _historyButtons := _historyButtons w;
     _enableDirPermissionsWarning := _enableDirPermissionsWarning w;
     _dirPermissionsWarning := _dirPermissionsWarning w;
     _unreadableDirsWindow := _unreadableDirsWindow w;
     _updateTimer := _updateTimer w;
     _treeExpandTimer := _treeExpandTimer w;
     isEnabled := v;
     treemapView := treemapView w;
     fileDetailsView_isVisible := fileDetailsView_isVisible w;
     actionShowTreemap_isChecked := actionShowTreemap_isChecked w;
     primaryPkgManager := primaryPkgManager w;
     log := log w |}.

Definition set_log (v : list Call) (w : MainWindow) : MainWindow :=
  {| dirTree := dirTree w;
     selectionModel := selectionModel w;
     _futureSelection := _futureSelection w;
     _historyButtons := _historyButtons w;
     _enableDirPermissionsWarning := _enableDirPermissionsWarning w;
     _dirPermissionsWarning := _dirPermissionsWarning w;
     _unreadableDirsWindow := _unreadableDirsWindow w;
     _updateTimer := _updateTimer w;
     _treeExpandTimer := _treeExpandTimer w;
     isEnabled := isEnabled w;
     treemapView := treemapView w;
     fileDetailsView_isVisible := fileDetailsView_isVisible w;
     actionShowTreemap_isChecked := actionShowTreemap_isChecked w;
     primaryPkgManager := primaryPkgManager w;
     log := v |}.

(** ** The state monad of the slots *)

Definition M (A : Type) : Type := MainWindow -> A * MainWindow.

Definition ret {A : Type} (a : A) : M A := fun w => (a, w).

Definition bind {A B : Type} (m : M A) (k : A -> M B) : M B :=
  fun w => let (a, w') := m w in k a w'.

Declare Scope slot_scope.
Delimit Scope slot_scope with slot.
Notation "x <- m ;; k" := (bind m (fun x => k))
  (at level 61, m at next level, right associativity) : slot_scope.
Notation "m ;; k" := (bind m (fun _ => k))
  (at level 61, right associativity) : slot_scope.
Local Open Scope slot_scope.

Definition gets {A : Type} (f : MainWindow -> A) : M A := fun w => (f w, w).
Definition modify (f : MainWindow -> MainWindow) : M unit := fun w => (tt, f w).
Definition when (b : bool) (m : M unit) : M unit := if b then m else ret tt.

(** The window after a slot has run. *)
Definition exec {A : Type} (m : M A) (w : MainWindow) : MainWindow := snd (m w).

(** The log is kept newest call first. *)
Definition call (c : Call) : M unit :=
  modify (fun w => set_log (c :: log w) w).

(** The calls made between [w] and a later [w'], oldest first. *)
Definition callsSince (w w' : MainWindow) : list Call :=
  rev (firstn (length (log w') - length (log w)) (log w')).

(** *** Collaborator calls whose effect the window reads back *)

Definition setEnabled (a : Action) (b : bool) : M unit :=
  modify (fun w =>
    set_isEnabled (fun x => if Action_eq_dec x a then b else isEnabled w x) w) ;;
  call (QAction_setEnabled a b).

Definition updateTimer_start : M unit :=
  modify (set_updateTimer true) ;; call UpdateTimer_start.

Definition updateTimer_stop : M unit :=
  modify (set_updateTimer false) ;; call UpdateTimer_stop.

Definition treeExpandTimer_start (msec : Z) : M unit :=
  modify (set_treeExpandTimer true) ;; call (TreeExpandTimer_start msec).

Definition treeExpandTimer_stop : M unit :=
  modify (set_treeExpandTimer false) ;; call TreeExpandTimer_stop.

Definition setCurrentBranch (item : FileInfo.t) : M unit :=
  modify (fun w =>
    set_selectionModel (SelectionModel.setCurrentBranch item (selectionModel w)) w) ;;
  call (SelectionModel_setCurrentBranch item).

Definition clearHistory : M unit :=
  modify (fun w =>
    set_historyButtons (HistoryButtons.clearHistory (_historyButtons w)) w) ;;
  call HistoryButtons_clearHistory.

(** ** The slots of [MainWindow] *)

Definition updateActions : M unit :=
  reading       <- gets (fun w => DirTree.isBusy (dirTree w)) ;;
  currentItem   <- gets (fun w => SelectionModel.currentItem (selectionModel w)) ;;
  firstToplevel <- gets (fun w => DirTree.firstToplevel (dirTree w)) ;;
  let pkgView := notNull firstToplevel && deref firstToplevel FileInfo.isPkgInfo in

  setEnabled actionStopReading   reading ;;
  setEnabled actionRefreshAll    (negb reading) ;;
  setEnabled actionAskReadCache  (negb reading) ;;
  setEnabled actionAskWriteCache (negb reading) ;;

  setEnabled actionCopyPathToClipboard (notNull currentItem) ;;
  setEnabled actionGoUp
    (notNull currentItem && deref currentItem (fun i => FileInfo.treeLevel i >? 1)) ;;
  setEnabled actionGoToToplevel
    (notNull firstToplevel &&
     (negb (notNull currentItem) ||
      deref currentItem (fun i => FileInfo.treeLevel i >? 1))) ;;

  selectedItems <- gets (fun w => SelectionModel.selectedItems (selectionModel w)) ;;
  let sel     := FileInfoSet.first selectedItems in
  let selSize := FileInfoSet.size selectedItems in

  let oneDirSelected :=
    (selSize =? 1) && notNull sel && deref sel FileInfo.isDir
                   && negb (deref sel FileInfo.isPkgInfo) in
  let pseudoDirSelected := FileInfoSet.containsPseudoDir selectedItems in
  let pkgSelected       := FileInfoSet.containsPkg selectedItems in

  setEnabled actionMoveToTrash
    (notNull sel && negb pseudoDirSelected && negb pkgSelected && negb reading) ;;
  setEnabled actionRefreshSelected
    ((selSize =? 1) && negb (deref sel FileInfo.isExcluded)
                    && negb (deref sel FileInfo.isMountPoint) && negb pkgView) ;;
  setEnabled actionContinueReadingAtMountPoint
    (oneDirSelected && deref sel FileInfo.isMountPoint) ;;
  setEnabled actionReadExcludedDirectory
    (oneDirSelected && deref sel FileInfo.isExcluded) ;;

  let nothingOrOneDir := FileInfoSet.isEmpty selectedItems || oneDirSelected in

  setEnabled actionFileSizeStats (negb reading && nothingOrOneDir) ;;
  setEnabled actionFileTypeStats (negb reading && nothingOrOneDir) ;;
  setEnabled actionFileAgeStats  (negb reading && nothingOrOneDir) ;;

  tm <- gets treemapView ;;
  let showingTreemap := tm_isVisible tm in

  setEnabled actionTreemapAsSidePanel showingTreemap ;;
  setEnabled actionTreemapZoomIn    (showingTreemap && tm_canZoomIn tm) ;;
  setEnabled actionTreemapZoomOut   (showingTreemap && tm_canZoomOut tm) ;;
  setEnabled actionResetTreemapZoom (showingTreemap && tm_canZoomOut tm) ;;
  setEnabled actionTreemapRebuild   showingTreemap ;;

  call HistoryButtons_updateActions.

Definition showTreemapView : M unit :=
  checked <- gets actionShowTreemap_isChecked ;;
  if checked then call TreemapView_enable else call TreemapView_disable.

Definition updateFileDetailsView : M unit :=
  visible <- gets fileDetailsView_isVisible ;;
  when visible
    (sel <- gets (fun w => SelectionModel.selectedItems (selectionModel w)) ;;
     if FileInfoSet.isEmpty sel then
       cur <- gets (fun w => SelectionModel.currentItem (selectionModel w)) ;;
       call (FileDetailsView_showDetails cur)
     else if FileInfoSet.size sel =? 1 then
       call (FileDetailsView_showDetails (FileInfoSet.first sel))
     else
       call (FileDetailsView_showDetailsSet sel)).

Definition expandTreeToLevel (level : Z) : M unit :=
  if level <? 1 then call DirTreeView_collapseAll
  else call (DirTreeView_expandToDepth (level - 1)).

Definition applyFutureSelection : M unit :=
  sel <- gets (fun w => FutureSelection.subtree (_futureSelection w) (dirTree w)) ;;
  match sel with
  | Some s =>
      treeExpandTimer_stop ;;
      modify (fun w =>
        set_futureSelection (FutureSelection.clear (_futureSelection w)) w) ;;
      setCurrentBranch s ;;
      when (FileInfo.isMountPoint s) (call (DirTreeView_setExpanded s true))
  | None => ret tt
  end.

Definition idleDisplay : M unit :=
  updateActions ;;
  updateTimer_stop ;;
  call (DirTreeView_sortByColumn PercentNumCol DescendingOrder) ;;
  pending <- gets (fun w => negb (FutureSelection.isEmpty (_futureSelection w))) ;;
  (if pending then
     treeExpandTimer_stop ;;
     applyFutureSelection
   else
     branch <- gets (fun w => SelectionModel.currentBranch (selectionModel w)) ;;
     when (negb (notNull branch)) (expandTreeToLevel 1)) ;;
  updateFileDetailsView ;;
  showTreemapView.

Definition showDirPermissionsWarning : M unit :=
  shown <- gets _dirPermissionsWarning ;;
  armed <- gets _enableDirPermissionsWarning ;;
  if shown || negb armed then ret tt
  else
    call MessagePanel_add ;;
    modify (set_dirPermissionsWarning true) ;;
    modify (set_enableDirPermissionsWarning false).

Definition readingFinished : M unit :=
  idleDisplay ;;
  call StatusBar_showFinished ;;
  top <- gets (fun w => DirTree.firstToplevel (dirTree w)) ;;
  when (notNull top && deref top (fun i => FileInfo.errSubDirCount i >? 0))
    showDirPermissionsWarning.

Definition readingAborted : M unit :=
  idleDisplay ;;
  call StatusBar_showAborted.

Definition stopReading : M unit :=
  busy <- gets (fun w => DirTree.isBusy (dirTree w)) ;;
  when busy
    (call DirTree_abortReading ;;
     call StatusBar_showReadingAborted).

Definition readCache (cacheFileName : string) : M unit :=
  call DirTreeModel_clear ;;
  clearHistory ;;
  when (negb (String.eqb cacheFileName "")) (call (DirTree_readCache cacheFileName)).

Definition askReadCache (fileName : string) : M unit :=
  when (negb (String.eqb fileName "")) (readCache fileName) ;;
  updateActions.

Definition readPkg (pkgUrl : string) : M unit :=
  call (MainWindow_updateWindowTitle pkgUrl) ;;
  expandTreeToLevel 0 ;;
  call (DirTreeModel_readPkg pkgUrl).

Definition askOpenPkg (canceled : bool) (pkgUrl : string) : M unit :=
  when (negb canceled)
    (call DirTree_reset ;;
     readPkg pkgUrl).

Definition isUnpkgUrl (url : string) : bool := String.prefix "unpkg:/" url.

(** [dir.replace( QRegExp( "^unpkg:" ), "" )] *)
Definition stripUnpkgScheme (dir : string) : string :=
  if String.prefix "unpkg:" dir
  then String.substring 6 (String.length dir - 6) dir
  else dir.

(** What the outside world answers while a directory is being opened:
    either the engine accepts the URL, or it throws
    [SysCallFailedException], after which [openDir] asks for another
    directory; [path] and [crossFilesystems] are what that dialog
    returns (an empty [path]: cancelled) and [next] is the answer to the
    open that follows. *)
Inductive OpenOutcome : Type :=
| Opened
| OpenFailed (path : string) (crossFilesystems : bool) (next : OpenOutcome).

Definition opened (o : OpenOutcome) : bool :=
  match o with Opened => true | OpenFailed _ _ _ => false end.

Definition showUnpkgFiles (url : string) (o : OpenOutcome) : M unit :=
  pkgManager <- gets primaryPkgManager ;;
  if negb pkgManager then ret tt
  else
    call DirTreeModel_clear ;;
    let dir := stripUnpkgScheme url in
    call DirTree_setUnpkgFilters ;;
    call (DirTreeModel_openUrl dir) ;;
    (if opened o then
       treeUrl <- gets (fun w => DirTree.url (dirTree w)) ;;
       call (MainWindow_updateWindowTitle treeUrl)
     else
       call (MainWindow_updateWindowTitle "") ;;
       call DirTree_sendFinished ;;
       call ErrorPopup_exec) ;;
    updateActions.

Section PkgFilter.

(** [PkgFilter::isPkgUrl] is declared outside [MainWindow.cpp]. *)
Variable isPkgUrl : string -> bool.

Definition busyDisplay : M unit :=
  call TreemapView_disable ;;
  updateActions ;;
  unreadable <- gets _unreadableDirsWindow ;;
  when unreadable (call UnreadableDirsWindow_close) ;;
  updateTimer_start ;;
  call (DirTreeView_sortByColumn NameCol AscendingOrder) ;;
  treeUrl <- gets (fun w => DirTree.url (dirTree w)) ;;
  branch  <- gets (fun w => SelectionModel.currentBranch (selectionModel w)) ;;
  when (negb (isPkgUrl treeUrl) && negb (notNull branch))
    (treeExpandTimer_start 200).

Definition startingReading : M unit :=
  call StopWatch_start ;;
  busyDisplay.

Definition refreshSelected : M unit :=
  busyDisplay ;;
  modify (fun w =>
    set_futureSelection
      (FutureSelection.set
         (FileInfoSet.first (SelectionModel.selectedItems (selectionModel w)))
         (_futureSelection w)) w) ;;
  call DirTreeModel_refreshSelected ;;
  updateActions.

(** [askOpenDir] and [openDir] call [openUrl], which calls them; the
    two are written over the function to call back, and [openUrl] ties
    the knot by recursion on the answers still to come.  What the
    engine does to the tree when it accepts a URL (the new URL, the
    busy flag) comes with its [startingReading()] notification
    ([scanStarted] below), not with the call that asks for the read:
    until then the window reads the tree as it was. *)
Definition askOpenDir_with (openUrl : string -> OpenOutcome -> M unit)
    (path : string) (crossFilesystems : bool) (o : OpenOutcome) : M unit :=
  when (negb (String.eqb path ""))
    (call DirTree_reset ;;
     call (DirTree_setCrossFilesystems crossFilesystems) ;;
     openUrl path o).

Definition openDir_with (openUrl : string -> OpenOutcome -> M unit)
    (url : string) (o : OpenOutcome) : M unit :=
  call (DirTreeModel_openUrl url) ;;
  match o with
  | Opened =>
      treeUrl <- gets (fun w => DirTree.url (dirTree w)) ;;
      call (MainWindow_updateWindowTitle treeUrl)
  | OpenFailed path crossFilesystems next =>
      call (MainWindow_updateWindowTitle "") ;;
      call DirTree_sendFinished ;;
      call ErrorPopup_exec ;;
      askOpenDir_with openUrl path crossFilesystems next
  end ;;
  updateActions ;;
  expandTreeToLevel 1.

Fixpoint openUrl (url : string) (o : OpenOutcome) {struct o} : M unit :=
  modify (set_enableDirPermissionsWarning true) ;;
  clearHistory ;;
  if isPkgUrl url then readPkg url
  else if isUnpkgUrl url then showUnpkgFiles url o
  else openDir_with openUrl url o.

Definition askOpenDir : string -> bool -> OpenOutcome -> M unit :=
  askOpenDir_with openUrl.

Definition openDir : string -> OpenOutcome -> M unit :=
  openDir_with openUrl.

(** [refreshAll] has no [try] block around the engine's [openUrl]: when
    that throws [SysCallFailedException] (the answer [o] is not
    [Opened]), the exception leaves the slot and what follows the call
    does not run. *)
Definition refreshAll (path : string) (crossFilesystems : bool)
    (o : OpenOutcome) : M unit :=
  modify (set_enableDirPermissionsWarning true) ;;
  url <- gets (fun w => DirTree.url (dirTree w)) ;;
  if negb (String.eqb url "") then
    if isPkgUrl url then
      call (DirTreeModel_readPkg url) ;;
      updateActions
    else
      call (DirTreeModel_openUrl url) ;;
      when (opened o) updateActions
  else
    askOpenDir path crossFilesystems o.

End PkgFilter.

(** ** Signals that reach the window *)

(** [_treeExpandTimer] is single-shot and its [timeout()] is connected
    to [actionExpandTreeLevel1], which calls [expandTreeToLevel( 1 )]. *)
Definition treeExpandTimer_timeout : M unit :=
  modify (set_treeExpandTimer false) ;;
  expandTreeToLevel 1.

Definition selectionChanged : M unit :=
  call StatusBar_showSummary ;;
  updateFileDetailsView.

Definition currentItemChanged (newCurrent oldCurrent : FileInfoPtr) : M unit :=
  call StatusBar_showSummary ;;
  when (negb (notNull oldCurrent)) updateFileDetailsView.

(** The selection model reports a new selection: the slots connected to
    [selectionChanged()] run in the order of [connectSignals]. *)
Definition selectionModel_selectionChanged (s : SelectionModel.t) : M unit :=
  modify (set_selectionModel s) ;;
  updateActions ;;
  selectionChanged.

(** The same for [currentItemChanged( FileInfo *, FileInfo * )]. *)
Definition selectionModel_currentItemChanged (s : SelectionModel.t) : M unit :=
  oldCurrent <- gets (fun w => SelectionModel.currentItem (selectionModel w)) ;;
  modify (set_selectionModel s) ;;
  let newCurrent := SelectionModel.currentItem s in
  updateActions ;;
  call (BreadcrumbNavigator_setPath newCurrent) ;;
  modify (fun w =>
    set_historyButtons
      (HistoryButtons.addToHistory newCurrent (_historyButtons w)) w) ;;
  currentItemChanged newCurrent oldCurrent.

(** The user closes the warning panel: the [QPointer] goes back to 0. *)
Definition dirPermissionsWarning_closed : M unit :=
  modify (set_dirPermissionsWarning false).

(** Modelled from the spec: the scanning engine (outside
    [MainWindow.cpp]) and its three notifications.  The engine owns the
    tree.  When a scan starts the tree is busy on the URL being read;
    when the scan finishes or is aborted the tree is idle again and
    holds the items that were read.  Each notification then runs the
    slot that [connectSignals] connects to it. *)
Definition scanStarted (isPkgUrl : string -> bool)
    (url : string) (items : list FileInfo.t) : M unit :=
  modify (set_dirTree {| DirTree.url := url;
                         DirTree.isBusy := true;
                         DirTree.items := items |}) ;;
  startingReading isPkgUrl.

Definition scanFinished (items : list FileInfo.t) : M unit :=
  modify (fun w => set_dirTree {| DirTree.url := DirTree.url (dirTree w);
                                  DirTree.isBusy := false;
                                  DirTree.items := items |} w) ;;
  readingFinished.

Definition scanAborted (items : list FileInfo.t) : M unit :=
  modify (fun w => set_dirTree {| DirTree.url := DirTree.url (dirTree w);
                                  DirTree.isBusy := false;
                                  DirTree.items := items |} w) ;;
  readingAborted.

(** ** Construction *)

(** The members as [MainWindow::MainWindow] initialises them, before the
    constructor's closing [updateActions()].  [fallbackDefault] is what
    a default-constructed future selection has for its fallback switch;
    the remaining arguments are what the widgets report at start-up. *)
Definition MainWindow_members (fallbackDefault : bool) (tm : TreemapView)
    (detailsVisible showTreemap pkgManager : bool) : MainWindow :=
  {| dirTree := {| DirTree.url := ""; DirTree.isBusy := false; DirTree.items := [] |};
     selectionModel := {| SelectionModel.currentItem := None;
                          SelectionModel.currentBranch := None;
                          SelectionModel.selectedItems := [] |};
     _futureSelection :=
       FutureSelection.setUseRootFallback false
         {| FutureSelection.targetPath := "";
            FutureSelection.useRootFallback := fallbackDefault |};
     _historyButtons := HistoryButtons.empty;
     _enableDirPermissionsWarning := false;
     _dirPermissionsWarning := false;
     _unreadableDirsWindow := false;
     _updateTimer := false;
     _treeExpandTimer := false;
     isEnabled := fun _ => true;
     treemapView := tm;
     fileDetailsView_isVisible := detailsVisible;
     actionShowTreemap_isChecked := showTreemap;
     primaryPkgManager := pkgManager;
     log := [] |}.

Definition MainWindow_new (fallbackDefault : bool) (tm : TreemapView)
    (detailsVisible showTreemap pkgManager : bool) : MainWindow :=
  exec (when (negb showTreemap) (call TreemapView_disable) ;;
        updateActions)
       (MainWindow_members fallbackDefault tm detailsVisible showTreemap pkgManager).

(** ** Events *)

(** Everything that can happen to the window: a user command, a
    notification of the engine or of the selection model, a timer that
    fires, a panel that is closed.  Arguments are what the outside world
    supplies on that occasion. *)
Inductive Event : Type :=
| CmdOpenUrl (url : string) (o : OpenOutcome)
| CmdAskOpenDir (path : string) (crossFilesystems : bool) (o : OpenOutcome)
| CmdAskOpenPkg (canceled : bool) (pkgUrl : string)
| CmdRefreshAll (path : string) (crossFilesystems : bool) (o : OpenOutcome)
| CmdRefreshSelected
| CmdStopReading
| CmdAskReadCache (fileName : string)
| CmdExpandTreeToLevel (level : Z)
| SigStartingReading (url : string) (items : list FileInfo.t)
| SigFinished (items : list FileInfo.t)
| SigAborted (items : list FileInfo.t)
| SigSelectionChanged (s : SelectionModel.t)
| SigCurrentItemChanged (s : SelectionModel.t)
| SigTreemapChanged (tm : TreemapView)
| SigTreeExpandTimeout
| SigWarningPanelClosed.

Definition set_treemapView (tm : TreemapView) (w : MainWindow) : MainWindow :=
  {| dirTree := dirTree w;
     selectionModel := selectionModel w;
     _futureSelection := _futureSelection w;
     _historyButtons := _historyButtons w;
     _enableDirPermissionsWarning := _enableDirPermissionsWarning w;
     _dirPermissionsWarning := _dirPermissionsWarning w;
     _unreadableDirsWindow := _unreadableDirsWindow w;
     _updateTimer := _updateTimer w;
     _treeExpandTimer := _treeExpandTimer w;
     isEnabled := isEnabled w;
     treemapView := tm;
     fileDetailsView_isVisible := fileDetailsView_isVisible w;
     actionShowTreemap_isChecked := actionShowTreemap_isChecked w;
     primaryPkgManager := primaryPkgManager w;
     log := log w |}.

Definition handle (isPkgUrl : string -> bool) (e : Event) : M unit :=
  match e with
  | CmdOpenUrl url o => openUrl isPkgUrl url o
  | CmdAskOpenDir path cross o => askOpenDir isPkgUrl path cross o
  | CmdAskOpenPkg canceled pkgUrl => askOpenPkg canceled pkgUrl
  | CmdRefreshAll path cross o => refreshAll isPkgUrl path cross o
  | CmdRefreshSelected => refreshSelected isPkgUrl
  | CmdStopReading => stopReading
  | CmdAskReadCache fileName => askReadCache fileName
  | CmdExpandTreeToLevel level => expandTreeToLevel level
  | SigStartingReading url items => scanStarted isPkgUrl url items
  | SigFinished items => scanFinished items
  | SigAborted items => scanAborted items
  | SigSelectionChanged s => selectionModel_selectionChanged s
  | SigCurrentItemChanged s => selectionModel_currentItemChanged s
  | SigTreemapChanged tm => modify (set_treemapView tm) ;; updateActions
  | SigTreeExpandTimeout =>
      active <- gets _treeExpandTimer ;;
      when active treeExpandTimer_timeout
  | SigWarningPanelClosed => dirPermissionsWarning_closed
  end.

Definition step (isPkgUrl : string -> bool) (w : MainWindow) (e : Event) : MainWindow :=
  exec (handle isPkgUrl e) w.

Definition run (isPkgUrl : string -> bool) (w : MainWindow) (es : list Event) : MainWindow :=
  fold_left (step isPkgUrl) es w.

(** The windows that a run of events from a freshly constructed window
    can produce. *)
Inductive reachable (isPkgUrl : string -> bool) : MainWindow -> Prop :=
| reachable_new : forall fallbackDefault tm detailsVisible showTreemap pkgManager,
    reachable isPkgUrl
      (MainWindow_new fallbackDefault tm detailsVisible showTreemap pkgManager)
| reachable_step : forall w e,
    reachable isPkgUrl w -> reachable isPkgUrl (step isPkgUrl w e).

(** The events that ask for a new top-level open or for a refresh of
    the whole tree. *)
Definition isOpenOrRefreshAll (e : Event) : bool :=
  match e with
  | CmdOpenUrl _ _ | CmdAskOpenDir _ _ _ | CmdRefreshAll _ _ _ => true
  | _ => false
  end.

(** How often the warning panel was put up in a log. *)
Definition panelsShown (l : list Call) : nat :=
  length (filter (fun c => match c with MessagePanel_add => true | _ => false end) l).

(** ** Reading the log *)

Definition isSetEnabled (c : Call) : bool :=
  match c with QAction_setEnabled _ _ => true | _ => false end.



Definition isTreeExpansion (c : Call) : bool :=
  match c with
  | DirTreeView_collapseAll | DirTreeView_expandToDepth _ => true
  | _ => false
  end.

Definition isShowDetails (c : Call) : bool :=
  match c with
  | FileDetailsView_showDetails _ | FileDetailsView_showDetailsSet _ => true
  | _ => false
  end.


(** What [updateFileDetailsView] shows for a given selection. *)
Definition detailsShown (s : SelectionModel.t) : Call :=
  let sel := SelectionModel.selectedItems s in
  if FileInfoSet.isEmpty sel then
    FileDetailsView_showDetails (SelectionModel.currentItem s)
  else if FileInfoSet.size sel =? 1 then
    FileDetailsView_showDetails (FileInfoSet.first sel)
  else FileDetailsView_showDetailsSet sel.

(** The armed flag and the panels put up so far, counted together. *)
Definition warningBudget (w : MainWindow) : nat :=
  (panelsShown (log w) + Nat.b2n (_enableDirPermissionsWarning w))%nat.

(** The calls that [updateActions] makes. *)
Definition isEnablementCall (c : Call) : bool :=
  match c with
  | QAction_setEnabled _ _ | HistoryButtons_updateActions => true
  | _ => false
  end.

(** The same window with the engine busy or idle. *)
Definition withBusy (busy : bool) (w : MainWindow) : MainWindow :=
  set_dirTree {| DirTree.url := DirTree.url (dirTree w);
                 DirTree.isBusy := busy;
                 DirTree.items := DirTree.items (dirTree w) |} w.

(** A slot that leaves [f] of the window as it was. *)
Definition preserves {A : Type} (f : MainWindow -> A) (m : M unit) : Prop :=
  forall w, f (exec m w) = f w.

(** A slot that neither touches the arming flag of the warning nor
    puts up a panel. *)
Definition quiet (m : M unit) : Prop :=
  preserves _enableDirPermissionsWarning m
  /\ preserves (fun w => panelsShown (log w)) m.

(** The fallback switch of the window's future selection. *)
Definition rootFallback (w : MainWindow) : bool :=
  FutureSelection.useRootFallback (_futureSelection w).


(** ** Scenarios *)

(** A package-URL test to run the slots with. *)
Definition pkgScheme (url : string) : bool := String.prefix "Pkg:" url.

Definition plainDir (url : string) (level : Z) : FileInfo.t :=
  {| FileInfo.url := url;
     FileInfo.isDir := true;
     FileInfo.isPkgInfo := false;
     FileInfo.isPseudoDir := false;
     FileInfo.isExcluded := false;
     FileInfo.isMountPoint := false;
     FileInfo.treeLevel := level;
     FileInfo.errSubDirCount := 0 |}.

Definition data : FileInfo.t := plainDir "/data" 1.
Definition dataLogs : FileInfo.t := plainDir "/data/logs" 2.

(** A window fresh from the constructor. *)
Definition freshWindow : MainWindow :=
  MainWindow_new true
    {| tm_isVisible := true; tm_canZoomIn := true; tm_canZoomOut := false |}
    true true true.

(** [/data] was opened and read; it holds [/data/logs]. *)
Definition dataLoaded : MainWindow :=
  run pkgScheme freshWindow
    [ CmdOpenUrl "/data" Opened;
      SigStartingReading "/data" [];
      SigFinished [data; dataLogs];
      SigTreeExpandTimeout ].

(** The user selects [/data/logs] and asks to refresh it; the engine
    starts reading. *)
Definition refreshingLogs : MainWindow :=
  run pkgScheme dataLoaded
    [ SigSelectionChanged {| SelectionModel.currentItem := None;
                             SelectionModel.currentBranch := None;
                             SelectionModel.selectedItems := [dataLogs] |};
      CmdRefreshSelected;
      SigStartingReading "/data" [data] ].

(** The user went from [/data] to [/data/logs]: two history entries. *)
Definition browsedLogs : MainWindow :=
  run pkgScheme dataLoaded
    [ SigCurrentItemChanged {| SelectionModel.currentItem := Some data;
                               SelectionModel.currentBranch := Some data;
                               SelectionModel.selectedItems := [data] |};
      SigCurrentItemChanged {| SelectionModel.currentItem := Some dataLogs;
                               SelectionModel.currentBranch := Some data;
                               SelectionModel.selectedItems := [dataLogs] |} ].

(** A directory with three unreadable subdirectories. *)
Definition lockedData : FileInfo.t :=
  {| FileInfo.url := "/data";
     FileInfo.isDir := true;
     FileInfo.isPkgInfo := false;
     FileInfo.isPseudoDir := false;
     FileInfo.isExcluded := false;
     FileInfo.isMountPoint := false;
     FileInfo.treeLevel := 1;
     FileInfo.errSubDirCount := 3 |}.

(** [/data] has just been asked for: the warning is armed. *)
Definition dataRequested : MainWindow :=
  run pkgScheme freshWindow [ CmdOpenUrl "/data" Opened ].

(** The scan reports unreadable directories, the user closes the
    panel and refreshes a selected item, and the re-scan reports them
    again. *)
Definition lockedRescan : list Event :=
  [ SigStartingReading "/data" [];
    SigFinished [lockedData; dataLogs];
    SigWarningPanelClosed;
    SigSelectionChanged {| SelectionModel.currentItem := None;
                           SelectionModel.currentBranch := None;
                           SelectionModel.selectedItems := [dataLogs] |};
    CmdRefreshSelected;
    SigStartingReading "/data" [lockedData];
    SigFinished [lockedData; dataLogs] ].

(** ** Further slots and readers *)

Definition selectedDirOrRoot (w : MainWindow) : FileInfoPtr :=
  let selectedItems := SelectionModel.selectedItems (selectionModel w) in
  let sel := FileInfoSet.first selectedItems in
  if negb (notNull sel) || negb (deref sel FileInfo.isDir)
  then DirTree.firstToplevel (dirTree w)
  else sel.

(** How often a log holds a call of some kind. *)
Definition countCalls (p : Call -> bool) (l : list Call) : nat :=
  length (filter p l).

Definition isSendFinished (c : Call) : bool :=
  match c with DirTree_sendFinished => true | _ => false end.

Definition isErrorPopup (c : Call) : bool :=
  match c with ErrorPopup_exec => true | _ => false end.

(** The calls that ask the engine to read something. *)
Definition isReadRequest (c : Call) : bool :=
  match c with
  | DirTreeModel_openUrl _ | DirTreeModel_readPkg _
  | DirTreeModel_refreshSelected | DirTree_readCache _ => true
  | _ => false
  end.

(** The depth of every [expandToDepth] call in a log is at least 0. *)
Definition depthsNonNegative (l : list Call) : Prop :=
  forall d, In (DirTreeView_expandToDepth d) l -> 0 <= d.

(** How many opens fail when [openUrl] is called for [url] and the
    outside world answers [o]: the opens of [url] and of the
    directories that the dialog returns after each failure.  A package
    URL goes to [readPkg], where nothing is caught; an [unpkg:/] URL is
    read only with a package manager, and a failure there asks for no
    other directory. *)
Fixpoint failedOpens (isPkgUrl : string -> bool) (pkgManager : bool)
    (url : string) (o : OpenOutcome) {struct o} : nat :=
  if isPkgUrl url then 0%nat
  else if isUnpkgUrl url then
    (if pkgManager && negb (opened o) then 1%nat else 0%nat)
  else
    match o with
    | Opened => 0%nat
    | OpenFailed path _ next =>
        S (if String.eqb path "" then 0%nat
           else failedOpens isPkgUrl pkgManager path next)
    end.

(** Every [sendFinished()] in a list of calls is followed at once by
    the error popup, and there is no error popup but these. *)
Fixpoint finishedThenPopup (l : list Call) : bool :=
  match l with
  | [] => true
  | DirTree_sendFinished :: l' =>
      match l' with
      | ErrorPopup_exec :: l'' => finishedThenPopup l''
      | _ => false
      end
  | ErrorPopup_exec :: _ => false
  | _ :: l' => finishedThenPopup l'
  end.

(** The value [updateActions] gives to a command, as a function of
    what it reads: the tree, the selection model and the treemap
    view. *)
Definition enablement (tr : DirTree.t) (s : SelectionModel.t) (tm : TreemapView)
    (a : Action) : bool :=
  let reading       := DirTree.isBusy tr in
  let currentItem   := SelectionModel.currentItem s in
  let firstToplevel := DirTree.firstToplevel tr in
  let pkgView := notNull firstToplevel && deref firstToplevel FileInfo.isPkgInfo in
  let selectedItems := SelectionModel.selectedItems s in
  let sel     := FileInfoSet.first selectedItems in
  let selSize := FileInfoSet.size selectedItems in
  let oneDirSelected :=
    (selSize =? 1) && notNull sel && deref sel FileInfo.isDir
                   && negb (deref sel FileInfo.isPkgInfo) in
  let pseudoDirSelected := FileInfoSet.containsPseudoDir selectedItems in
  let pkgSelected       := FileInfoSet.containsPkg selectedItems in
  let nothingOrOneDir := FileInfoSet.isEmpty selectedItems || oneDirSelected in
  let showingTreemap := tm_isVisible tm in
  match a with
  | actionStopReading   => reading
  | actionRefreshAll    => negb reading
  | actionAskReadCache  => negb reading
  | actionAskWriteCache => negb reading
  | actionCopyPathToClipboard => notNull currentItem
  | actionGoUp =>
      notNull currentItem && deref currentItem (fun i => FileInfo.treeLevel i >? 1)
  | actionGoToToplevel =>
      notNull firstToplevel &&
      (negb (notNull currentItem) ||
       deref currentItem (fun i => FileInfo.treeLevel i >? 1))
  | actionMoveToTrash =>
      notNull sel && negb pseudoDirSelected && negb pkgSelected && negb reading
  | actionRefreshSelected =>
      (selSize =? 1) && negb (deref sel FileInfo.isExcluded)
                     && negb (deref sel FileInfo.isMountPoint) && negb pkgView
  | actionContinueReadingAtMountPoint => oneDirSelected && deref sel FileInfo.isMountPoint
  | actionReadExcludedDirectory => oneDirSelected && deref sel FileInfo.isExcluded
  | actionFileSizeStats => negb reading && nothingOrOneDir
  | actionFileTypeStats => negb reading && nothingOrOneDir
  | actionFileAgeStats  => negb reading && nothingOrOneDir
  | actionTreemapAsSidePanel => showingTreemap
  | actionTreemapZoomIn    => showingTreemap && tm_canZoomIn tm
  | actionTreemapZoomOut   => showingTreemap && tm_canZoomOut tm
  | actionResetTreemapZoom => showingTreemap && tm_canZoomOut tm
  | actionTreemapRebuild   => showingTreemap
  end.

(** ** Tree layouts *)

(** [TreeLayout] is declared in [MainWindow.h]; the three fields are
    the ones [MainWindow.cpp] reads and writes. *)
Module TreeLayout.
Record t : Type := mk {
  name             : string;
  showCurrentPath  : bool;
  showDetailsPanel : bool
}.
End TreeLayout.

(** The members of the window that deal with layouts.  [_layouts] is
    the [QMap] from layout names to layouts; [_currentLayout] points to
    one of its values and is modelled by the key of that value ([None]
    is the 0 pointer).  The two [isChecked] fields are the state of the
    view actions, [headerTweaker_layout] is the layout the header of
    the tree view was last switched to. *)
Record Layouts : Type := mkLayouts {
  _layoutName                      : string;
  _currentLayout                   : option string;
  _layouts                         : list (string * TreeLayout.t);
  actionShowCurrentPath_isChecked  : bool;
  actionShowDetailsPanel_isChecked : bool;
  headerTweaker_layout             : string
}.

(** [_layouts.contains( name )] and [_layouts[ name ]]. *)
Definition layoutOf (name : string) (layouts : list (string * TreeLayout.t))
  : option TreeLayout.t :=
  option_map snd (find (fun e => String.eqb (fst e) name) layouts).

(** [createLayouts]; the arguments are the flags a newly constructed
    [TreeLayout] has. *)
Definition createLayouts (newShowCurrentPath newShowDetailsPanel : bool)
  : list (string * TreeLayout.t) :=
  [ ("L1", {| TreeLayout.name := "L1";
              TreeLayout.showCurrentPath := newShowCurrentPath;
              TreeLayout.showDetailsPanel := newShowDetailsPanel |});
    ("L2", {| TreeLayout.name := "L2";
              TreeLayout.showCurrentPath := newShowCurrentPath;
              TreeLayout.showDetailsPanel := newShowDetailsPanel |});
    ("L3", {| TreeLayout.name := "L3";
              TreeLayout.showCurrentPath := newShowCurrentPath;
              TreeLayout.showDetailsPanel := false |}) ].

(** [saveLayout( layout )], for the layout stored under [key]: the
    object in the map is written in place. *)
Definition saveLayout (key : string) (s : Layouts) : Layouts :=
  {| _layoutName := _layoutName s;
     _currentLayout := _currentLayout s;
     _layouts :=
       map (fun e =>
              if String.eqb (fst e) key
              then (fst e,
                    {| TreeLayout.name := TreeLayout.name (snd e);
                       TreeLayout.showCurrentPath := actionShowCurrentPath_isChecked s;
                       TreeLayout.showDetailsPanel := actionShowDetailsPanel_isChecked s |})
              else e)
           (_layouts s);
     actionShowCurrentPath_isChecked := actionShowCurrentPath_isChecked s;
     actionShowDetailsPanel_isChecked := actionShowDetailsPanel_isChecked s;
     headerTweaker_layout := headerTweaker_layout s |}.

Definition applyLayout (layout : TreeLayout.t) (s : Layouts) : Layouts :=
  {| _layoutName := _layoutName s;
     _currentLayout := _currentLayout s;
     _layouts := _layouts s;
     actionShowCurrentPath_isChecked := TreeLayout.showCurrentPath layout;
     actionShowDetailsPanel_isChecked := TreeLayout.showDetailsPanel layout;
     headerTweaker_layout := headerTweaker_layout s |}.

(** [changeLayout( name )]; [senderData] is the data of the action
    that sent the signal, if there is one and its data is valid. *)
Definition changeLayout (name : string) (senderData : option string)
    (s : Layouts) : Layouts :=
  let layoutName :=
    if String.eqb name ""
    then match senderData with Some d => d | None => "L2" end
    else name in
  let s1 := {| _layoutName := layoutName;
               _currentLayout := _currentLayout s;
               _layouts := _layouts s;
               actionShowCurrentPath_isChecked := actionShowCurrentPath_isChecked s;
               actionShowDetailsPanel_isChecked := actionShowDetailsPanel_isChecked s;
               headerTweaker_layout := layoutName |} in
  let s2 := match _currentLayout s1 with
            | Some key => saveLayout key s1
            | None => s1
            end in
  match layoutOf layoutName (_layouts s2) with
  | Some layout =>
      applyLayout layout
        {| _layoutName := _layoutName s2;
           _currentLayout := Some layoutName;
           _layouts := _layouts s2;
           actionShowCurrentPath_isChecked := actionShowCurrentPath_isChecked s2;
           actionShowDetailsPanel_isChecked := actionShowDetailsPanel_isChecked s2;
           headerTweaker_layout := headerTweaker_layout s2 |}
  | None => s2
  end.

(** The user toggles the two view options. *)
Definition toggleViewOptions (currentPath detailsPanel : bool) (s : Layouts)
  : Layouts :=
  {| _layoutName := _layoutName s;
     _currentLayout := _currentLayout s;
     _layouts := _layouts s;
     actionShowCurrentPath_isChecked := currentPath;
     actionShowDetailsPanel_isChecked := detailsPanel;
     headerTweaker_layout := headerTweaker_layout s |}.

(** ** Further scenarios *)

(** [/data] was asked for and the engine reads it; the tree holds
    [/data] with its unreadable subdirectories. *)
Definition lockedReading : MainWindow :=
  run pkgScheme dataRequested [ SigStartingReading "/data" [lockedData] ].

(** A mount point below [/data]. *)
Definition dataMnt : FileInfo.t :=
  {| FileInfo.url := "/data/mnt";
     FileInfo.isDir := true;
     FileInfo.isPkgInfo := false;
     FileInfo.isPseudoDir := false;
     FileInfo.isExcluded := false;
     FileInfo.isMountPoint := true;
     FileInfo.treeLevel := 2;
     FileInfo.errSubDirCount := 0 |}.

(** [/data] is loaded and [/data/logs] is the one selected item. *)
Definition logsSelected : MainWindow :=
  run pkgScheme dataLoaded
    [ SigSelectionChanged {| SelectionModel.currentItem := Some dataLogs;
                             SelectionModel.currentBranch := Some data;
                             SelectionModel.selectedItems := [dataLogs] |} ].

(** * Proofs *)

(** ** Running a slot step by step *)

Lemma exec_bind_unit {B : Type} (m : M unit) (k : unit -> M B) (w : MainWindow) :
  exec (bind m k) w = exec (k tt) (exec m w).
Proof. unfold exec, bind. now destruct (m w) as [[] w']. Qed.

Lemma exec_bind_gets {A B : Type} (f : MainWindow -> A) (k : A -> M B)
    (w : MainWindow) :
  exec (bind (gets f) k) w = exec (k (f w)) w.
Proof. reflexivity. Qed.

Lemma exec_ret {A : Type} (a : A) (w : MainWindow) : exec (ret a) w = w.
Proof. reflexivity. Qed.

Lemma exec_modify (f : MainWindow -> MainWindow) (w : MainWindow) :
  exec (modify f) w = f w.
Proof. reflexivity. Qed.

Lemma exec_call (c : Call) (w : MainWindow) :
  exec (call c) w = set_log (c :: log w) w.
Proof. reflexivity. Qed.

Lemma exec_when (b : bool) (m : M unit) (w : MainWindow) :
  exec (when b m) w = if b then exec m w else w.
Proof. now destruct b. Qed.

Lemma exec_if {A : Type} (b : bool) (m1 m2 : M A) (w : MainWindow) :
  exec (if b then m1 else m2) w = if b then exec m1 w else exec m2 w.
Proof. now destruct b. Qed.

Lemma exec_when_true (m : M unit) (w : MainWindow) :
  exec (when true m) w = exec m w.
Proof. reflexivity. Qed.

Lemma exec_when_false (m : M unit) (w : MainWindow) :
  exec (when false m) w = w.
Proof. reflexivity. Qed.

Lemma set_log_same (w : MainWindow) : set_log (log w) w = w.
Proof. now destruct w. Qed.

(** [updateActions] touches the enabled flags and the log, nothing
    else, and all it calls is [setEnabled] and the history buttons. *)
Lemma exec_updateActions (w : MainWindow) :
  exists (f : Action -> bool) (l : list Call),
    exec updateActions w = set_log (l ++ log w) (set_isEnabled f w)
    /\ forallb isEnablementCall l = true.
Proof.
  exists (isEnabled (exec updateActions w)),
         (firstn 20 (log (exec updateActions w))).
  split; vm_compute; reflexivity.
Qed.

Lemma exec_updateFileDetailsView (w : MainWindow) :
  exec updateFileDetailsView w =
  set_log ((if fileDetailsView_isVisible w
            then [detailsShown (selectionModel w)] else []) ++ log w) w.
Proof.
  unfold exec, updateFileDetailsView, detailsShown, bind, gets, when.
  destruct (fileDetailsView_isVisible w); [|symmetry; apply set_log_same].
  destruct (FileInfoSet.isEmpty _); [reflexivity|].
  destruct (_ =? 1); reflexivity.
Qed.

Lemma exec_showTreemapView (w : MainWindow) :
  exec showTreemapView w =
  set_log ((if actionShowTreemap_isChecked w
            then TreemapView_enable else TreemapView_disable) :: log w) w.
Proof.
  unfold exec, showTreemapView, bind, gets.
  destruct (actionShowTreemap_isChecked w); reflexivity.
Qed.

Create Rewrite HintDb slot.
#[global] Hint Rewrite @exec_bind_gets @exec_bind_unit @exec_ret exec_modify exec_call
  exec_when_true exec_when_false
  exec_updateFileDetailsView exec_showTreemapView : slot.

(** Compute the members of a window that is given step by step. *)
Ltac fields :=
  cbn -[updateActions updateFileDetailsView showTreemapView idleDisplay
        callsSince panelsShown
        FutureSelection.subtree FutureSelection.isEmpty].

Ltac fields_in H :=
  cbn -[updateActions updateFileDetailsView showTreemapView idleDisplay
        callsSince panelsShown
        FutureSelection.subtree FutureSelection.isEmpty] in H.

(** Rewrite a slot into the sequence of its steps. *)
Ltac steps := repeat (progress (autorewrite with slot; cbn beta)).

(** Replace every run of [updateActions] by its frame. *)
Ltac run_ua :=
  repeat match goal with
  | |- context [exec updateActions ?W] =>
      let f := fresh "f" in
      let l := fresh "l" in
      let E := fresh "E" in
      let Hl := fresh "Hl" in
      destruct (exec_updateActions W) as (f & l & E & Hl);
      rewrite E; clear E
  end.

(** Replace the tests whose outcome is already known. *)
Ltac use_tests :=
  repeat match goal with
         | H : ?x = true |- context [?x] => rewrite H
         | H : ?x = false |- context [?x] => rewrite H
         | H : ?x = Some _ |- context [?x] => rewrite H
         | H : ?x = None |- context [?x] => rewrite H
         end.

(** A window that is given without any test left to decide. *)
Ltac decided W :=
  lazymatch W with
  | context [exec (when _ _) _] => fail
  | context [exec (if _ then _ else _) _] => fail
  | context [exec (match _ with Some _ => _ | None => _ end) _] => fail
  | _ => idtac
  end.

(** Run a slot to its end, splitting on every test it makes, the
    earliest test first. *)
Ltac go :=
  repeat (steps; run_ua; fields; use_tests;
          try match goal with
              | |- context [exec (when ?b _) ?W] =>
                  decided W; rewrite (exec_when b); destruct b eqn:?
              | |- context [exec (if ?b then _ else _) ?W] =>
                  decided W; rewrite (exec_if b); destruct b eqn:?
              | |- context [exec (match ?x with Some _ => _ | None => _ end) ?W] =>
                  decided W; destruct x eqn:?
              end).

(** ** Reading the calls of a run off the log *)

Lemma callsSince_app (w w' : MainWindow) (l : list Call) :
  log w' = (l ++ log w)%list -> callsSince w w' = rev l.
Proof.
  intros H. unfold callsSince. rewrite H, length_app.
  replace (length l + length (log w) - length (log w))%nat with (length l) by lia.
  now rewrite firstn_app, Nat.sub_diag, firstn_all, firstn_O, app_nil_r.
Qed.

Lemma split_nil (base : list Call) : base = ([] ++ base)%list.
Proof. reflexivity. Qed.

Lemma split_cons (c : Call) (t L base : list Call) :
  t = (L ++ base)%list -> c :: t = ((c :: L) ++ base)%list.
Proof. now intros ->. Qed.

Lemma split_app (l t L base : list Call) :
  t = (L ++ base)%list -> (l ++ t)%list = ((l ++ L) ++ base)%list.
Proof. intros ->. now rewrite app_assoc. Qed.

Ltac split_log :=
  fields;
  repeat first [ apply split_nil | eapply split_cons | eapply split_app ].

Ltac calls_since :=
  match goal with
  | |- context [callsSince ?w ?w'] =>
      erewrite (callsSince_app w w') by split_log
  end.

Lemma not_enablement_not_in (c : Call) (l : list Call) :
  forallb isEnablementCall l = true -> isEnablementCall c = false -> ~ In c l.
Proof.
  intros Hl Hc Hin. rewrite forallb_forall in Hl. apply Hl in Hin. congruence.
Qed.

Ltac not_in_enablement :=
  exfalso;
  match goal with
  | Hl : forallb isEnablementCall ?l = true, H : In ?c ?l |- _ =>
      exact (not_enablement_not_in c l Hl eq_refl H)
  end.

Ltac in_calls :=
  rewrite <- ?in_rev; cbn [In app]; rewrite ?in_app_iff; cbn [In app].

(** ** Counting warning panels in a log *)

Lemma panelsShown_app (l1 l2 : list Call) :
  panelsShown (l1 ++ l2) = (panelsShown l1 + panelsShown l2)%nat.
Proof. unfold panelsShown. now rewrite filter_app, length_app. Qed.

Lemma panelsShown_cons (c : Call) (l : list Call) :
  panelsShown (c :: l) =
  ((match c with MessagePanel_add => 1 | _ => 0 end) + panelsShown l)%nat.
Proof. unfold panelsShown. cbn [filter]. now destruct c. Qed.

Lemma panelsShown_enablement (l : list Call) :
  forallb isEnablementCall l = true -> panelsShown l = 0%nat.
Proof.
  induction l as [|c l IH]; [reflexivity|].
  cbn [forallb]. rewrite andb_true_iff, panelsShown_cons. intros [Hc Hl].
  rewrite (IH Hl). now destruct c.
Qed.

Lemma detailsShown_not_panel (s : SelectionModel.t) :
  match detailsShown s with MessagePanel_add => 1%nat | _ => 0%nat end = 0%nat.
Proof.
  unfold detailsShown.
  destruct (FileInfoSet.isEmpty _); [reflexivity|].
  destruct (_ =? 1); reflexivity.
Qed.

Ltac count_panels :=
  repeat first [ rewrite panelsShown_app | rewrite panelsShown_cons ];
  repeat match goal with
         | Hl : forallb isEnablementCall ?l = true |- _ =>
             rewrite (panelsShown_enablement l Hl)
         end;
  rewrite ?detailsShown_not_panel.

(** ** Selections *)

Lemma first_notNull (s : FileInfoSet.t) :
  notNull (FileInfoSet.first s) = negb (FileInfoSet.isEmpty s).
Proof. destruct s; reflexivity. Qed.

Lemma size_one (s : FileInfoSet.t) :
  (FileInfoSet.size s =? 1) = true <-> exists i, s = [i].
Proof.
  unfold FileInfoSet.size. rewrite Z.eqb_eq. split.
  - destruct s as [|i [|j s]]; cbn [length]; intros H; try lia. now exists i.
  - intros [i ->]. reflexivity.
Qed.

(** ** What a completion does to the members of the window *)

Lemma idleDisplay_members (w : MainWindow) :
  let w' := exec idleDisplay w in
  let pending := negb (FutureSelection.isEmpty (_futureSelection w)) in
  let sel := FutureSelection.subtree (_futureSelection w) (dirTree w) in
  dirTree w' = dirTree w
  /\ _updateTimer w' = false
  /\ _treeExpandTimer w' = _treeExpandTimer w && negb pending
  /\ _futureSelection w' =
       (if pending && notNull sel
        then FutureSelection.clear (_futureSelection w)
        else _futureSelection w)
  /\ selectionModel w' =
       (match sel with
        | Some s => if pending
                    then SelectionModel.setCurrentBranch s (selectionModel w)
                    else selectionModel w
        | None => selectionModel w
        end)
  /\ _historyButtons w' = _historyButtons w
  /\ _enableDirPermissionsWarning w' = _enableDirPermissionsWarning w
  /\ _dirPermissionsWarning w' = _dirPermissionsWarning w
  /\ panelsShown (log w') = panelsShown (log w).
Proof.
  cbv zeta. unfold idleDisplay, applyFutureSelection, expandTreeToLevel,
    treeExpandTimer_stop, updateTimer_stop, setCurrentBranch.
  steps. run_ua. fields.
  destruct (FutureSelection.isEmpty (_futureSelection w)) eqn:Hp;
  destruct (FutureSelection.subtree (_futureSelection w) (dirTree w)) as [s|] eqn:Hs;
  destruct (SelectionModel.currentBranch (selectionModel w)) eqn:Hb;
  fields; try (destruct (FileInfo.isMountPoint s) eqn:Hm); go;
  rewrite ?andb_true_r, ?andb_false_r;
  repeat split; trivial.
  all: destruct (fileDetailsView_isVisible w), (actionShowTreemap_isChecked w);
       cbn [app]; count_panels; reflexivity.
Qed.

(** Whether the tree that was read reports unreadable directories. *)
Lemma showDirPermissionsWarning_members (w : MainWindow) :
  let w' := exec showDirPermissionsWarning w in
  let shows := negb (_dirPermissionsWarning w) && _enableDirPermissionsWarning w in
  dirTree w' = dirTree w
  /\ _updateTimer w' = _updateTimer w
  /\ _treeExpandTimer w' = _treeExpandTimer w
  /\ _futureSelection w' = _futureSelection w
  /\ selectionModel w' = selectionModel w
  /\ _historyButtons w' = _historyButtons w
  /\ _enableDirPermissionsWarning w' = _enableDirPermissionsWarning w && negb shows
  /\ _dirPermissionsWarning w' = _dirPermissionsWarning w || shows
  /\ panelsShown (log w') = (panelsShown (log w) + Nat.b2n shows)%nat.
Proof.
  cbv zeta. unfold showDirPermissionsWarning.
  destruct (_dirPermissionsWarning w) eqn:Hs;
  destruct (_enableDirPermissionsWarning w) eqn:Ha;
  go; try discriminate; count_panels; cbn; repeat split; try lia.
Qed.

Lemma readingFinished_members (w : MainWindow) :
  let w' := exec readingFinished w in
  let pending := negb (FutureSelection.isEmpty (_futureSelection w)) in
  let sel := FutureSelection.subtree (_futureSelection w) (dirTree w) in
  let top := DirTree.firstToplevel (dirTree w) in
  let shows := notNull top && deref top (fun i => FileInfo.errSubDirCount i >? 0)
               && (negb (_dirPermissionsWarning w) && _enableDirPermissionsWarning w) in
  dirTree w' = dirTree w
  /\ _updateTimer w' = false
  /\ _treeExpandTimer w' = _treeExpandTimer w && negb pending
  /\ _futureSelection w' =
       (if pending && notNull sel
        then FutureSelection.clear (_futureSelection w)
        else _futureSelection w)
  /\ selectionModel w' =
       (match sel with
        | Some s => if pending
                    then SelectionModel.setCurrentBranch s (selectionModel w)
                    else selectionModel w
        | None => selectionModel w
        end)
  /\ _historyButtons w' = _historyButtons w
  /\ _enableDirPermissionsWarning w' = _enableDirPermissionsWarning w && negb shows
  /\ _dirPermissionsWarning w' = _dirPermissionsWarning w || shows
  /\ panelsShown (log w') = (panelsShown (log w) + Nat.b2n shows)%nat.
Proof.
  cbv zeta. unfold readingFinished. steps.
  destruct (idleDisplay_members w)
    as (Ht & Hu & He & Hf & Hs & Hh & Ha & Hd & Hp).
  cbv zeta in Ht, Hu, He, Hf, Hs, Hh, Ha, Hd, Hp.
  set (wi := exec idleDisplay w) in *. clearbody wi.
  fields. rewrite Ht.
  set (b := notNull _ && deref _ _). rewrite exec_when.
  unfold showDirPermissionsWarning.
  rewrite <- Hf, <- Hs, <- Ha, <- Hd, <- Hp, <- He.
  destruct b;
  destruct (_dirPermissionsWarning wi) eqn:Hshown;
  destruct (_enableDirPermissionsWarning wi) eqn:Harmed;
  go; try discriminate; count_panels; cbn;
  rewrite ?Nat.add_0_r; repeat split; trivial; lia.
Qed.

Lemma readingAborted_members (w : MainWindow) :
  let w' := exec readingAborted w in
  let pending := negb (FutureSelection.isEmpty (_futureSelection w)) in
  let sel := FutureSelection.subtree (_futureSelection w) (dirTree w) in
  dirTree w' = dirTree w
  /\ _updateTimer w' = false
  /\ _treeExpandTimer w' = _treeExpandTimer w && negb pending
  /\ _futureSelection w' =
       (if pending && notNull sel
        then FutureSelection.clear (_futureSelection w)
        else _futureSelection w)
  /\ selectionModel w' =
       (match sel with
        | Some s => if pending
                    then SelectionModel.setCurrentBranch s (selectionModel w)
                    else selectionModel w
        | None => selectionModel w
        end)
  /\ _historyButtons w' = _historyButtons w
  /\ _enableDirPermissionsWarning w' = _enableDirPermissionsWarning w
  /\ _dirPermissionsWarning w' = _dirPermissionsWarning w
  /\ panelsShown (log w') = panelsShown (log w).
Proof.
  cbv zeta. unfold readingAborted. steps.
  destruct (idleDisplay_members w)
    as (Ht & Hu & He & Hf & Hs & Hh & Ha & Hd & Hp).
  cbv zeta in Ht, Hu, He, Hf, Hs, Hh, Ha, Hd, Hp.
  set (wi := exec idleDisplay w) in *. clearbody wi.
  fields. rewrite panelsShown_cons. cbn [Nat.add].
  rewrite Ht, Hu, He, Hf, Hs, Hh, Ha, Hd, Hp. repeat split; reflexivity.
Qed.

Lemma busyDisplay_members (isPkgUrl : string -> bool) (w : MainWindow) :
  let w' := exec (busyDisplay isPkgUrl) w in
  let wanted := negb (isPkgUrl (DirTree.url (dirTree w)))
                && negb (notNull (SelectionModel.currentBranch (selectionModel w))) in
  dirTree w' = dirTree w
  /\ _updateTimer w' = true
  /\ _treeExpandTimer w' = wanted || _treeExpandTimer w
  /\ _futureSelection w' = _futureSelection w
  /\ selectionModel w' = selectionModel w
  /\ _historyButtons w' = _historyButtons w
  /\ _enableDirPermissionsWarning w' = _enableDirPermissionsWarning w
  /\ _dirPermissionsWarning w' = _dirPermissionsWarning w
  /\ panelsShown (log w') = panelsShown (log w).
Proof.
  cbv zeta. unfold busyDisplay, updateTimer_start, treeExpandTimer_start.
  destruct (isPkgUrl (DirTree.url (dirTree w))) eqn:Hu;
  destruct (SelectionModel.currentBranch (selectionModel w)) eqn:Hb;
  destruct (_unreadableDirsWindow w) eqn:Hw;
  go; try discriminate; count_panels; repeat split; reflexivity.
Qed.

(** ** The claims *)

(** The tree as the engine leaves it when a scan ends. *)
Lemma scanFinished_members (w : MainWindow) (items : list FileInfo.t) :
  let rebuilt := {| DirTree.url := DirTree.url (dirTree w);
                    DirTree.isBusy := false;
                    DirTree.items := items |} in
  let pending := negb (FutureSelection.isEmpty (_futureSelection w)) in
  let sel := FutureSelection.subtree (_futureSelection w) rebuilt in
  forall w', w' = exec (scanFinished items) w \/ w' = exec (scanAborted items) w ->
  dirTree w' = rebuilt
  /\ _updateTimer w' = false
  /\ _treeExpandTimer w' = _treeExpandTimer w && negb pending
  /\ _futureSelection w' =
       (if pending && notNull sel
        then FutureSelection.clear (_futureSelection w)
        else _futureSelection w)
  /\ selectionModel w' =
       (match sel with
        | Some s => if pending
                    then SelectionModel.setCurrentBranch s (selectionModel w)
                    else selectionModel w
        | None => selectionModel w
        end)
  /\ _historyButtons w' = _historyButtons w.
Proof.
  intros rebuilt pending sel w' [-> | ->].
  - unfold scanFinished. steps.
    destruct (readingFinished_members (set_dirTree rebuilt w))
      as (Ht & Hu & He & Hf & Hs & Hh & _).
    repeat split; assumption.
  - unfold scanAborted. steps.
    destruct (readingAborted_members (set_dirTree rebuilt w))
      as (Ht & Hu & He & Hf & Hs & Hh & _).
    repeat split; assumption.
Qed.

(** C1 (as amended): a scan completion that finds a future selection
    pending consumes it when its target resolves in the rebuilt tree,
    so that [isEmpty] holds afterwards; when the target does not
    resolve, the future selection is left as it was. *)
Theorem futureSelection_consumed_when_resolved
    (w : MainWindow) (items : list FileInfo.t) :
  FutureSelection.isEmpty (_futureSelection w) = false ->
  let rebuilt := {| DirTree.url := DirTree.url (dirTree w);
                    DirTree.isBusy := false;
                    DirTree.items := items |} in
  forall w', w' = exec (scanFinished items) w \/ w' = exec (scanAborted items) w ->
  match FutureSelection.subtree (_futureSelection w) rebuilt with
  | Some _ => FutureSelection.isEmpty (_futureSelection w') = true
  | None => _futureSelection w' = _futureSelection w
  end.
Proof.
  intros Hp rebuilt w' Hw'.
  destruct (scanFinished_members w items w' Hw') as (_ & _ & _ & Hf & _).
  rewrite Hf, Hp. fold rebuilt.
  destruct (FutureSelection.subtree (_futureSelection w) rebuilt); reflexivity.
Qed.

Lemma futureSelection_consumed_when_resolved_witness :
  FutureSelection.isEmpty
    (_futureSelection (exec (scanFinished [data; dataLogs]) refreshingLogs)) = true.
Proof.
  pose proof (futureSelection_consumed_when_resolved refreshingLogs [data; dataLogs]
                ltac:(vm_compute; reflexivity) _ (or_introl eq_refl)) as H.
  vm_compute in H. vm_compute. exact H.
Defined.

(** C1 fails as stated: [/data/logs] is awaited, the rebuilt tree no
    longer has it, and after the completion the future selection is
    still pending. *)
Lemma futureSelection_survives_failed_resolve :
  FutureSelection.isEmpty (_futureSelection refreshingLogs) = false
  /\ FutureSelection.isEmpty
       (_futureSelection (exec (scanFinished [data]) refreshingLogs)) <> true.
Proof. split; vm_compute; [reflexivity | discriminate]. Qed.

(** C3 (as amended): after a session start followed by a finished or
    an aborted scan the engine is idle and the progress ticker is
    stopped; the one-shot settle-timer is no longer pending when a
    future selection was pending at completion, and otherwise it is
    left as the session start left it: still pending if the start
    armed it (or found it pending). *)
Theorem session_ends_idle (isPkgUrl : string -> bool) (w : MainWindow)
    (url : string) (items items' : list FileInfo.t) :
  let armed := negb (isPkgUrl url)
               && negb (notNull (SelectionModel.currentBranch (selectionModel w))) in
  let ends (w2 : MainWindow) :=
    DirTree.isBusy (dirTree w2) = false
    /\ _updateTimer w2 = false
    /\ _treeExpandTimer w2 =
         (armed || _treeExpandTimer w)
         && FutureSelection.isEmpty (_futureSelection w) in
  let w1 := exec (scanStarted isPkgUrl url items) w in
  ends (exec (scanFinished items') w1) /\ ends (exec (scanAborted items') w1).
Proof.
  intros armed ends w1.
  assert (H1 : _treeExpandTimer w1 = armed || _treeExpandTimer w
               /\ _futureSelection w1 = _futureSelection w).
  { subst w1. unfold scanStarted, startingReading. steps.
    set (w0 := set_log _ (set_dirTree _ w)).
    destruct (busyDisplay_members isPkgUrl w0) as (_ & _ & He & Hf & _).
    split; assumption. }
  destruct H1 as [He Hf].
  assert (Hends : forall w2,
             w2 = exec (scanFinished items') w1 \/ w2 = exec (scanAborted items') w1 ->
             ends w2).
  { intros w2 Hw2.
    destruct (scanFinished_members w1 items' w2 Hw2) as (Ht & Hu & He2 & _).
    unfold ends. rewrite Ht, Hu, He2, He, Hf, negb_involutive.
    repeat split; reflexivity. }
  split; apply Hends; [left | right]; reflexivity.
Qed.

(** C3 fails as stated: [/data] is opened in a fresh window, the scan
    finishes before the settle-timer fires, no future selection is
    pending, and the timer is still pending when the completion
    handler returns. *)
Lemma settle_timer_survives_completion :
  let w1 := exec (scanStarted pkgScheme "/data" []) freshWindow in
  let w2 := exec (scanFinished [data; dataLogs]) w1 in
  ~ (DirTree.isBusy (dirTree w2) = false /\ _treeExpandTimer w2 = false).
Proof. vm_compute. intros [_ H]. discriminate H. Qed.

(** C7: at session start the settle-timer is started, with 200 ms,
    exactly when the URL of the tree is no package URL and the
    selection model has no current branch; the timer is then pending
    (it also stays pending if it was), and all its firing does is to
    expand the tree to level 1. *)
Theorem settle_timer_armed_at_start (isPkgUrl : string -> bool) (w : MainWindow) :
  let w' := exec (startingReading isPkgUrl) w in
  let wanted := negb (isPkgUrl (DirTree.url (dirTree w)))
                && negb (notNull (SelectionModel.currentBranch (selectionModel w))) in
  (In (TreeExpandTimer_start 200) (callsSince w w') <-> wanted = true)
  /\ (forall msec, In (TreeExpandTimer_start msec) (callsSince w w') -> msec = 200)
  /\ _treeExpandTimer w' = wanted || _treeExpandTimer w
  /\ exec treeExpandTimer_timeout w'
     = set_log (DirTreeView_expandToDepth 0 :: log w') (set_treeExpandTimer false w').
Proof.
  intros w' wanted. split; [|split; [|split]]; [ | | | reflexivity ].
  - subst w' wanted. unfold startingReading, busyDisplay,
      updateTimer_start, treeExpandTimer_start.
    destruct (isPkgUrl (DirTree.url (dirTree w))) eqn:Hu;
    destruct (SelectionModel.currentBranch (selectionModel w)) eqn:Hb;
    destruct (_unreadableDirsWindow w) eqn:Hw;
    go; try discriminate; calls_since; in_calls;
    (split; [ intros H; decompose [or] H; try discriminate; try tauto; not_in_enablement
            | intros H; try discriminate; tauto ]).
  - subst w' wanted. intros msec. unfold startingReading, busyDisplay,
      updateTimer_start, treeExpandTimer_start.
    destruct (isPkgUrl (DirTree.url (dirTree w))) eqn:Hu;
    destruct (SelectionModel.currentBranch (selectionModel w)) eqn:Hb;
    destruct (_unreadableDirsWindow w) eqn:Hw;
    go; try discriminate; calls_since; in_calls;
    intros H; decompose [or] H; try discriminate; try tauto;
    try congruence; not_in_enablement.
  - subst w' wanted. unfold startingReading. steps.
    destruct (busyDisplay_members isPkgUrl (set_log (StopWatch_start :: log w) w))
      as (_ & _ & He & _).
    exact He.
Qed.

(** The value [updateActions] gives to move-to-trash. *)
Lemma moveToTrash_value (w : MainWindow) :
  isEnabled (exec updateActions w) actionMoveToTrash =
  let sel := SelectionModel.selectedItems (selectionModel w) in
  notNull (FileInfoSet.first sel)
  && negb (FileInfoSet.containsPseudoDir sel)
  && negb (FileInfoSet.containsPkg sel)
  && negb (DirTree.isBusy (dirTree w)).
Proof. reflexivity. Qed.

(** C8: after [updateActions], move-to-trash is enabled exactly when
    at least one item is selected, no selected item is a pseudo
    directory or a package, and the tree is not being read. *)
Theorem moveToTrash_enabled_iff (w : MainWindow) :
  let sel := SelectionModel.selectedItems (selectionModel w) in
  isEnabled (exec updateActions w) actionMoveToTrash = true <->
  sel <> []
  /\ (forall i, In i sel ->
        FileInfo.isPseudoDir i = false /\ FileInfo.isPkgInfo i = false)
  /\ DirTree.isBusy (dirTree w) = false.
Proof.
  intros sel. rewrite moveToTrash_value. fold sel.
  rewrite !andb_true_iff, !negb_true_iff, first_notNull, negb_true_iff.
  unfold FileInfoSet.containsPseudoDir, FileInfoSet.containsPkg.
  split.
  - intros [[[Hne Hps] Hpk] Hbusy]. repeat split; trivial.
    + intros ->. discriminate.
    + destruct (FileInfo.isPseudoDir i) eqn:E; trivial.
      assert (existsb FileInfo.isPseudoDir sel = true)
        by (apply existsb_exists; eauto).
      congruence.
    + destruct (FileInfo.isPkgInfo i) eqn:E; trivial.
      assert (existsb FileInfo.isPkgInfo sel = true)
        by (apply existsb_exists; eauto).
      congruence.
  - intros (Hne & Hall & Hbusy). repeat split; trivial.
    + destruct sel; [congruence | reflexivity].
    + destruct (existsb FileInfo.isPseudoDir sel) eqn:E; trivial.
      apply existsb_exists in E as (i & Hin & Hi).
      destruct (Hall i Hin). congruence.
    + destruct (existsb FileInfo.isPkgInfo sel) eqn:E; trivial.
      apply existsb_exists in E as (i & Hin & Hi).
      destruct (Hall i Hin). congruence.
Qed.

(** C9: [stopReading] on a tree that is not busy does nothing: the
    window, its log included, is the same afterwards, so the engine is
    not asked to abort and no message is shown. *)
Theorem stopReading_when_idle (w : MainWindow) :
  DirTree.isBusy (dirTree w) = false -> stopReading w = (tt, w).
Proof.
  intros H. unfold stopReading, bind, gets, when. rewrite H. reflexivity.
Qed.

Lemma stopReading_when_idle_witness :
  DirTree.isBusy (dirTree dataLoaded) = false
  /\ stopReading dataLoaded = (tt, dataLoaded).
Proof.
  split; [ vm_compute; reflexivity
         | apply (stopReading_when_idle dataLoaded); vm_compute; reflexivity ].
Defined.

(** C10: [updateActions] enables refresh-selected exactly when one
    item is selected that is neither excluded nor a mount point and the
    first toplevel item is no package; whether the tree is busy does
    not matter, whereas refresh-all, read-cache and write-cache are
    enabled only on an idle tree. *)
Theorem refreshSelected_enabled_while_busy (w : MainWindow) :
  let sel := SelectionModel.selectedItems (selectionModel w) in
  let enabled := isEnabled (exec updateActions w) in
  (enabled actionRefreshSelected = true <->
     (exists i, sel = [i]
                /\ FileInfo.isExcluded i = false
                /\ FileInfo.isMountPoint i = false)
     /\ ~ (exists top, DirTree.firstToplevel (dirTree w) = Some top
                       /\ FileInfo.isPkgInfo top = true))
  /\ (forall busy,
        isEnabled (exec updateActions (withBusy busy w)) actionRefreshSelected
        = enabled actionRefreshSelected)
  /\ enabled actionRefreshAll = negb (DirTree.isBusy (dirTree w))
  /\ enabled actionAskReadCache = negb (DirTree.isBusy (dirTree w))
  /\ enabled actionAskWriteCache = negb (DirTree.isBusy (dirTree w)).
Proof.
  intros sel enabled.
  assert (Hval : enabled actionRefreshSelected =
                 (FileInfoSet.size sel =? 1)
                 && negb (deref (FileInfoSet.first sel) FileInfo.isExcluded)
                 && negb (deref (FileInfoSet.first sel) FileInfo.isMountPoint)
                 && negb (notNull (DirTree.firstToplevel (dirTree w))
                          && deref (DirTree.firstToplevel (dirTree w)) FileInfo.isPkgInfo))
    by reflexivity.
  split; [ | split; [ intros busy; reflexivity | repeat split; reflexivity ] ].
  rewrite Hval, !andb_true_iff, !negb_true_iff, size_one. split.
  - intros [[[[i Hi] Hex] Hmp] Hpkg]. split.
    + exists i. rewrite Hi in Hex, Hmp. now cbn in Hex, Hmp.
    + intros (top & Htop & Hp). rewrite Htop in Hpkg. cbn in Hpkg. congruence.
  - intros [(i & Hi & Hex & Hmp) Hnot].
    rewrite Hi. cbn. repeat split; eauto.
    destruct (DirTree.firstToplevel (dirTree w)) as [top|] eqn:Htop; cbn; trivial.
    destruct (FileInfo.isPkgInfo top) eqn:Hp; trivial.
    exfalso. apply Hnot. eauto.
Qed.

(** ** The warning about unreadable directories *)

Ltac quiet_slot :=
  split; (let w := fresh "w" in intros w); go; try discriminate; count_panels;
  repeat match goal with
         | |- context [if ?b then _ else _] => destruct b
         end;
  cbn [app]; count_panels; reflexivity.

Lemma quiet_busyDisplay (isPkgUrl : string -> bool) : quiet (busyDisplay isPkgUrl).
Proof.
  split; intros w;
    destruct (busyDisplay_members isPkgUrl w) as (_ & _ & _ & _ & _ & _ & Ha & _ & Hp);
    assumption.
Qed.

Lemma quiet_updateActions : quiet updateActions.
Proof. quiet_slot. Qed.

Lemma quiet_bind (m : M unit) (k : unit -> M unit) :
  quiet m -> quiet (k tt) -> quiet (bind m k).
Proof.
  intros [Hm1 Hm2] [Hk1 Hk2]. split; intros w; rewrite exec_bind_unit.
  - rewrite Hk1. apply Hm1.
  - rewrite Hk2. apply Hm2.
Qed.

Lemma quiet_refreshSelected (isPkgUrl : string -> bool) :
  quiet (refreshSelected isPkgUrl).
Proof.
  unfold refreshSelected. apply quiet_bind; [apply quiet_busyDisplay|].
  quiet_slot.
Qed.

Lemma quiet_scanStarted (isPkgUrl : string -> bool) url items :
  quiet (scanStarted isPkgUrl url items).
Proof.
  destruct (quiet_busyDisplay isPkgUrl) as [Hb1 Hb2].
  unfold scanStarted, startingReading. split; intros w; steps.
  - rewrite Hb1. reflexivity.
  - rewrite Hb2. fields. count_panels. reflexivity.
Qed.

(** One event that is no open and no refresh-all: the panel count does
    not go down, and the count and the armed flag together do not go
    up. *)
Lemma warningBudget_step (isPkgUrl : string -> bool) (w : MainWindow) (e : Event) :
  isOpenOrRefreshAll e = false ->
  (panelsShown (log w) <= panelsShown (log (step isPkgUrl w e)))%nat
  /\ (warningBudget (step isPkgUrl w e) <= warningBudget w)%nat.
Proof.
  intros He. unfold warningBudget, step.
  assert (Hq : forall m, quiet m ->
     (panelsShown (log w) <= panelsShown (log (exec m w)))%nat
     /\ (panelsShown (log (exec m w))
         + Nat.b2n (_enableDirPermissionsWarning (exec m w))
         <= panelsShown (log w) + Nat.b2n (_enableDirPermissionsWarning w))%nat).
  { intros m [Hm1 Hm2]. rewrite Hm1, (Hm2 w). lia. }
  destruct e; try discriminate He; cbn [handle].
  - apply Hq. unfold askOpenPkg, readPkg, expandTreeToLevel. quiet_slot.
  - apply Hq, quiet_refreshSelected.
  - apply Hq. unfold stopReading. quiet_slot.
  - apply Hq. unfold askReadCache, readCache, clearHistory. quiet_slot.
  - apply Hq. unfold expandTreeToLevel. quiet_slot.
  - apply Hq, quiet_scanStarted.
  - unfold scanFinished. steps.
    set (w0 := set_dirTree _ w).
    destruct (readingFinished_members w0) as (_ & _ & _ & _ & _ & _ & Ha & _ & Hp).
    rewrite Ha, Hp. subst w0. fields.
    destruct (_enableDirPermissionsWarning w), (_dirPermissionsWarning w),
      (notNull _ && deref _ _); cbn; lia.
  - unfold scanAborted. steps.
    set (w0 := set_dirTree _ w).
    destruct (readingAborted_members w0) as (_ & _ & _ & _ & _ & _ & Ha & _ & Hp).
    rewrite Ha, Hp. subst w0. fields. lia.
  - apply Hq. unfold selectionModel_selectionChanged, selectionChanged. quiet_slot.
  - apply Hq. unfold selectionModel_currentItemChanged, currentItemChanged. quiet_slot.
  - apply Hq. quiet_slot.
  - apply Hq. unfold treeExpandTimer_timeout, expandTreeToLevel. quiet_slot.
  - apply Hq. unfold dirPermissionsWarning_closed. quiet_slot.
Qed.

Lemma warningBudget_run (isPkgUrl : string -> bool) (es : list Event) :
  forall w,
    forallb (fun e => negb (isOpenOrRefreshAll e)) es = true ->
    (panelsShown (log w) <= panelsShown (log (run isPkgUrl w es)))%nat
    /\ (warningBudget (run isPkgUrl w es) <= warningBudget w)%nat.
Proof.
  induction es as [|e es IH]; intros w Hes; [cbn; lia|].
  cbn [forallb] in Hes. apply andb_true_iff in Hes as [He Hes].
  apply negb_true_iff in He.
  destruct (warningBudget_step isPkgUrl w e He) as [H1 H2].
  destruct (IH (step isPkgUrl w e) Hes) as [H3 H4].
  unfold run in *. cbn [fold_left]. lia.
Qed.

(** C5: over any run of events that contains no open and no
    refresh-all, the warning panel is put up at most once; the arming
    flag is never set (it is set afterwards only if it was set before
    and no panel was put up); and a panel is put up only with the flag
    set, which is cleared by it. *)
Theorem warning_at_most_once_until_rearmed
    (isPkgUrl : string -> bool) (w : MainWindow) (es : list Event) :
  forallb (fun e => negb (isOpenOrRefreshAll e)) es = true ->
  let w' := run isPkgUrl w es in
  let shown := (panelsShown (log w') - panelsShown (log w))%nat in
  (panelsShown (log w) <= panelsShown (log w'))%nat
  /\ (shown <= 1)%nat
  /\ (_enableDirPermissionsWarning w' = true ->
        _enableDirPermissionsWarning w = true /\ shown = 0%nat)
  /\ (shown = 1%nat ->
        _enableDirPermissionsWarning w = true
        /\ _enableDirPermissionsWarning w' = false).
Proof.
  intros Hes w' shown.
  destruct (warningBudget_run isPkgUrl es w Hes) as [H1 H2].
  fold w' in H1, H2. unfold warningBudget in H2. subst shown.
  destruct (_enableDirPermissionsWarning w), (_enableDirPermissionsWarning w');
    cbn [Nat.b2n] in H2; repeat split; intros; try discriminate; lia.
Qed.

Lemma warning_at_most_once_until_rearmed_witness :
  let w' := run pkgScheme dataRequested lockedRescan in
  _enableDirPermissionsWarning dataRequested = true
  /\ (panelsShown (log w') - panelsShown (log dataRequested) = 1)%nat
  /\ _enableDirPermissionsWarning w' = false.
Proof.
  pose proof (warning_at_most_once_until_rearmed pkgScheme dataRequested lockedRescan
                ltac:(vm_compute; reflexivity)) as H.
  cbv zeta in H. destruct H as (_ & _ & _ & H).
  assert (E : (panelsShown (log (run pkgScheme dataRequested lockedRescan))
               - panelsShown (log dataRequested) = 1)%nat)
    by (vm_compute; reflexivity).
  cbv zeta. destruct (H E) as [H1 H2]. repeat split; assumption.
Defined.

(** ** The fallback switch of the future selection *)

Ltac keeps_slot :=
  let w := fresh "w" in
  intros w; unfold rootFallback; go; try discriminate; reflexivity.

Lemma preserves_bind {A : Type} (f : MainWindow -> A) (m : M unit) (k : unit -> M unit) :
  preserves f m -> preserves f (k tt) -> preserves f (bind m k).
Proof. intros Hm Hk w. rewrite exec_bind_unit, Hk. apply Hm. Qed.

Lemma preserves_when {A : Type} (f : MainWindow -> A) (b : bool) (m : M unit) :
  preserves f m -> preserves f (when b m).
Proof. intros Hm w. rewrite exec_when. destruct b; [apply Hm | reflexivity]. Qed.

Lemma rootFallback_updateActions : preserves rootFallback updateActions.
Proof. keeps_slot. Qed.

Lemma rootFallback_busyDisplay (isPkgUrl : string -> bool) :
  preserves rootFallback (busyDisplay isPkgUrl).
Proof.
  intros w. unfold rootFallback.
  destruct (busyDisplay_members isPkgUrl w) as (_ & _ & _ & -> & _). reflexivity.
Qed.

Lemma rootFallback_clear (w : MainWindow) (b : bool) :
  FutureSelection.useRootFallback
    (if b then FutureSelection.clear (_futureSelection w) else _futureSelection w)
  = rootFallback w.
Proof. now destruct b. Qed.

Lemma rootFallback_readingFinished : preserves rootFallback readingFinished.
Proof.
  intros w. unfold rootFallback at 1.
  destruct (readingFinished_members w) as (_ & _ & _ & -> & _).
  apply rootFallback_clear.
Qed.

Lemma rootFallback_readingAborted : preserves rootFallback readingAborted.
Proof.
  intros w. unfold rootFallback at 1.
  destruct (readingAborted_members w) as (_ & _ & _ & -> & _).
  apply rootFallback_clear.
Qed.

Lemma rootFallback_showUnpkgFiles (url : string) (o : OpenOutcome) :
  preserves rootFallback (showUnpkgFiles url o).
Proof. unfold showUnpkgFiles. destruct o; keeps_slot. Qed.

Lemma rootFallback_openUrl (isPkgUrl : string -> bool) (o : OpenOutcome) :
  forall url, preserves rootFallback (openUrl isPkgUrl url o).
Proof.
  induction o as [|path cross next IH]; intros url w; cbn [openUrl];
    unfold clearHistory, readPkg, expandTreeToLevel.
  - destruct (isPkgUrl url); [unfold rootFallback; go; reflexivity | ].
    destruct (isUnpkgUrl url).
    + steps. rewrite rootFallback_showUnpkgFiles. reflexivity.
    + unfold openDir_with, expandTreeToLevel, rootFallback. go. reflexivity.
  - destruct (isPkgUrl url).
    + unfold rootFallback. go. reflexivity.
    + destruct (isUnpkgUrl url).
      * steps. rewrite rootFallback_showUnpkgFiles. reflexivity.
      * unfold openDir_with, askOpenDir_with, expandTreeToLevel.
        destruct (String.eqb path "") eqn:Hpath; cbn [negb]; steps.
        -- unfold rootFallback. go. reflexivity.
        -- set (w0 := exec (openUrl isPkgUrl path next) _).
           assert (H0 : rootFallback w0 = rootFallback w)
             by (subst w0; rewrite IH; reflexivity).
           clearbody w0. unfold rootFallback in *. go. exact H0.
Qed.

Lemma rootFallback_askOpenDir (isPkgUrl : string -> bool) path cross o :
  preserves rootFallback (askOpenDir isPkgUrl path cross o).
Proof.
  unfold askOpenDir, askOpenDir_with. apply preserves_when.
  intros w. steps. rewrite rootFallback_openUrl. reflexivity.
Qed.

Lemma rootFallback_step (isPkgUrl : string -> bool) (w : MainWindow) (e : Event) :
  rootFallback (step isPkgUrl w e) = rootFallback w.
Proof.
  unfold step. revert w.
  change (preserves rootFallback (handle isPkgUrl e)).
  destruct e; cbn [handle].
  - apply rootFallback_openUrl.
  - apply rootFallback_askOpenDir.
  - unfold askOpenPkg, readPkg, expandTreeToLevel. keeps_slot.
  - unfold refreshAll. intros w. steps. fields.
    destruct (String.eqb (DirTree.url (dirTree w)) ""); cbn [negb].
    + rewrite rootFallback_askOpenDir. reflexivity.
    + unfold rootFallback. go; reflexivity.
  - unfold refreshSelected. apply preserves_bind; [apply rootFallback_busyDisplay|].
    keeps_slot.
  - unfold stopReading. keeps_slot.
  - unfold askReadCache, readCache, clearHistory. keeps_slot.
  - unfold expandTreeToLevel. keeps_slot.
  - unfold scanStarted, startingReading. intros w. steps.
    rewrite rootFallback_busyDisplay. reflexivity.
  - unfold scanFinished. intros w. steps.
    rewrite rootFallback_readingFinished. reflexivity.
  - unfold scanAborted. intros w. steps.
    rewrite rootFallback_readingAborted. reflexivity.
  - unfold selectionModel_selectionChanged, selectionChanged. keeps_slot.
  - unfold selectionModel_currentItemChanged, currentItemChanged. keeps_slot.
  - keeps_slot.
  - unfold treeExpandTimer_timeout, expandTreeToLevel. keeps_slot.
  - unfold dirPermissionsWarning_closed. keeps_slot.
Qed.

Lemma rootFallback_new fallbackDefault tm detailsVisible showTreemap pkgManager :
  rootFallback
    (MainWindow_new fallbackDefault tm detailsVisible showTreemap pkgManager) = false.
Proof.
  unfold MainWindow_new, rootFallback. steps.
  destruct (exec_updateActions
              (exec (when (negb showTreemap) (call TreemapView_disable))
                 (MainWindow_members fallbackDefault tm detailsVisible
                    showTreemap pkgManager))) as (f & l & -> & _).
  rewrite exec_when. destruct showTreemap; reflexivity.
Qed.

Lemma reachable_rootFallback (isPkgUrl : string -> bool) (w : MainWindow) :
  reachable isPkgUrl w -> rootFallback w = false.
Proof.
  induction 1 as [| w e Hw IH].
  - apply rootFallback_new.
  - now rewrite rootFallback_step.
Qed.

Lemma reachable_run (isPkgUrl : string -> bool) (es : list Event) :
  forall w, reachable isPkgUrl w -> reachable isPkgUrl (run isPkgUrl w es).
Proof.
  induction es as [|e es IH]; intros w Hw; [exact Hw|].
  apply IH. now constructor.
Qed.

(** C6: the constructor switches the root fallback of the future
    selection off, and it stays off in every window that events can
    produce; when in such a window a scan completes whose awaited
    target is not in the rebuilt tree, the selection model is left
    exactly as it was: no item is made current in place of the
    target. *)
Theorem vanished_target_selects_nothing
    (isPkgUrl : string -> bool) (w : MainWindow) (items : list FileInfo.t) :
  reachable isPkgUrl w ->
  FutureSelection.isEmpty (_futureSelection w) = false ->
  let rebuilt := {| DirTree.url := DirTree.url (dirTree w);
                    DirTree.isBusy := false;
                    DirTree.items := items |} in
  DirTree.locate rebuilt (FutureSelection.targetPath (_futureSelection w)) = None ->
  (forall fallbackDefault tm detailsVisible showTreemap pkgManager,
      rootFallback
        (MainWindow_new fallbackDefault tm detailsVisible showTreemap pkgManager)
      = false)
  /\ rootFallback w = false
  /\ selectionModel (exec (scanFinished items) w) = selectionModel w
  /\ selectionModel (exec (scanAborted items) w) = selectionModel w.
Proof.
  intros Hr Hp rebuilt Hloc.
  pose proof (reachable_rootFallback isPkgUrl w Hr) as Hfb.
  assert (Hsel : FutureSelection.subtree (_futureSelection w) rebuilt = None).
  { unfold FutureSelection.subtree. rewrite Hloc.
    unfold rootFallback in Hfb. now rewrite Hfb. }
  split; [exact rootFallback_new | split; [exact Hfb | ]].
  split.
  - destruct (scanFinished_members w items _ (or_introl eq_refl))
      as (_ & _ & _ & _ & Hs & _).
    rewrite Hs. fold rebuilt. now rewrite Hsel.
  - destruct (scanFinished_members w items _ (or_intror eq_refl))
      as (_ & _ & _ & _ & Hs & _).
    rewrite Hs. fold rebuilt. now rewrite Hsel.
Qed.

Lemma refreshingLogs_reachable : reachable pkgScheme refreshingLogs.
Proof.
  unfold refreshingLogs, dataLoaded, freshWindow.
  repeat apply reachable_run. constructor.
Qed.

Lemma vanished_target_selects_nothing_witness :
  rootFallback refreshingLogs = false
  /\ selectionModel (exec (scanFinished [data]) refreshingLogs)
     = selectionModel refreshingLogs.
Proof.
  destruct (vanished_target_selects_nothing pkgScheme refreshingLogs [data]
              refreshingLogs_reachable
              ltac:(vm_compute; reflexivity)
              ltac:(vm_compute; reflexivity)) as (_ & H1 & H2 & _).
  split; assumption.
Defined.

(** ** The order of a completion *)

Lemma forallb_rev_true (p : Call -> bool) (l : list Call) :
  forallb p l = true -> forallb p (rev l) = true.
Proof.
  rewrite !forallb_forall. intros H c Hc. apply H. now apply in_rev.
Qed.



(** ** History *)

(** C4: the history holds [/data] and [/data/logs]; opening a package
    view from the dialog leaves both entries in place, while opening
    the same package URL through [openUrl] empties the history, as
    reading a cache file does. *)
Theorem askOpenPkg_keeps_history :
  HistoryButtons.entries (_historyButtons browsedLogs) = ["/data"; "/data/logs"]
  /\ _historyButtons (exec (askOpenPkg false "Pkg:/") browsedLogs)
     = _historyButtons browsedLogs
  /\ _historyButtons (exec (openUrl pkgScheme "Pkg:/" Opened) browsedLogs)
     = HistoryButtons.empty
  /\ _historyButtons (exec (readCache "/tmp/data.cache") browsedLogs)
     = HistoryButtons.empty.
Proof. vm_compute. repeat split; reflexivity. Qed.

(** * Further properties of the slots *)

(** From here on the counters of calls are kept folded when the
    members of a window are computed. *)
Ltac fields ::=
  cbn -[updateActions updateFileDetailsView showTreemapView idleDisplay
        callsSince panelsShown countCalls
        FutureSelection.subtree FutureSelection.isEmpty].

Ltac fields_in H ::=
  cbn -[updateActions updateFileDetailsView showTreemapView idleDisplay
        callsSince panelsShown countCalls
        FutureSelection.subtree FutureSelection.isEmpty] in H.

(** ** Counting calls *)

Lemma countCalls_app (p : Call -> bool) (l1 l2 : list Call) :
  countCalls p (l1 ++ l2) = (countCalls p l1 + countCalls p l2)%nat.
Proof. unfold countCalls. now rewrite filter_app, length_app. Qed.

Lemma countCalls_cons (p : Call -> bool) (c : Call) (l : list Call) :
  countCalls p (c :: l) = (Nat.b2n (p c) + countCalls p l)%nat.
Proof. unfold countCalls. cbn [filter]. now destruct (p c). Qed.

Lemma countCalls_enablement (p : Call -> bool) (l : list Call) :
  (forall c, isEnablementCall c = true -> p c = false) ->
  forallb isEnablementCall l = true -> countCalls p l = 0%nat.
Proof.
  intros Hp. induction l as [|c l IH]; [reflexivity|].
  cbn [forallb]. rewrite andb_true_iff, countCalls_cons. intros [Hc Hl].
  now rewrite (Hp c Hc), (IH Hl).
Qed.

Lemma enablement_not_sendFinished c :
  isEnablementCall c = true -> isSendFinished c = false.
Proof. now destruct c. Qed.

Lemma enablement_not_errorPopup c :
  isEnablementCall c = true -> isErrorPopup c = false.
Proof. now destruct c. Qed.

Lemma enablement_not_readRequest c :
  isEnablementCall c = true -> isReadRequest c = false.
Proof. now destruct c. Qed.

Ltac count_calls :=
  repeat first [ rewrite countCalls_app | rewrite countCalls_cons ];
  repeat match goal with
         | Hl : forallb isEnablementCall ?l = true |- _ =>
             first [ rewrite (countCalls_enablement isSendFinished l
                                enablement_not_sendFinished Hl)
                   | rewrite (countCalls_enablement isErrorPopup l
                                enablement_not_errorPopup Hl)
                   | rewrite (countCalls_enablement isReadRequest l
                                enablement_not_readRequest Hl) ]
         end;
  cbn [Nat.b2n isSendFinished isErrorPopup isReadRequest Nat.add].

(** ** Opening a URL *)

Lemma countCalls_rev (p : Call -> bool) (l : list Call) :
  countCalls p (rev l) = countCalls p l.
Proof.
  induction l as [|c l IH]; [reflexivity|].
  cbn [rev]. rewrite countCalls_app, !countCalls_cons, IH. cbn. lia.
Qed.

(** Calls up to a complete report of a failure do not bear on the
    reports that follow. *)
Lemma finishedThenPopup_app (a b : list Call) :
  finishedThenPopup a = true -> finishedThenPopup (a ++ b) = finishedThenPopup b.
Proof.
  remember (length a) as n eqn:Hn. revert a Hn.
  induction n as [n IH] using lt_wf_ind. intros a Hn Ha.
  destruct a as [|c a]; [reflexivity|].
  destruct c; cbn [finishedThenPopup app] in *;
    try (apply (IH (length a)); [subst; cbn [length]; lia | reflexivity | exact Ha]);
    try discriminate.
  destruct a as [|d a]; [discriminate|].
  destruct d; try discriminate. cbn [app].
  apply (IH (length a)); [subst; cbn [length]; lia | reflexivity | exact Ha].
Qed.

Lemma finishedThenPopup_enablement (l : list Call) :
  forallb isEnablementCall l = true -> finishedThenPopup l = true.
Proof.
  induction l as [|c l IH]; [reflexivity|].
  cbn [forallb]. rewrite andb_true_iff. intros [Hc Hl].
  destruct c; try discriminate; cbn [finishedThenPopup]; exact (IH Hl).
Qed.

(** Failures are reported in order all through a list of calls. *)
Ltac popups :=
  repeat (rewrite ?rev_app_distr; cbn [rev app finishedThenPopup];
          rewrite <- ?app_assoc; cbn [rev app finishedThenPopup];
          try match goal with
              | Hl : forallb isEnablementCall ?l = true
                |- context [finishedThenPopup (rev ?l ++ ?r)] =>
                  rewrite (finishedThenPopup_app (rev l) r)
                    by (apply finishedThenPopup_enablement, forallb_rev_true; exact Hl)
              | Hr : finishedThenPopup ?l = true
                |- context [finishedThenPopup (?l ++ ?r)] =>
                  rewrite (finishedThenPopup_app l r Hr)
              end).

Ltac reported :=
  popups;
  first [ reflexivity
        | apply finishedThenPopup_enablement, forallb_rev_true; assumption ].

(** What [openUrl] leaves behind, whatever the engine and the user
    answer along the way. *)
Lemma openUrl_members (isPkgUrl : string -> bool) (o : OpenOutcome) :
  forall url w,
    let w' := exec (openUrl isPkgUrl url o) w in
    let failed := failedOpens isPkgUrl (primaryPkgManager w) url o in
    _historyButtons w' = HistoryButtons.empty
    /\ _enableDirPermissionsWarning w' = true
    /\ exists L, log w' = (L ++ HistoryButtons_clearHistory :: log w)%list
                 /\ countCalls isSendFinished L = failed
                 /\ countCalls isErrorPopup L = failed
                 /\ finishedThenPopup (rev L) = true.
Proof.
  induction o as [|path cross next IH]; intros url w; cbv zeta; cbn [openUrl failedOpens];
    unfold clearHistory, readPkg, showUnpkgFiles, openDir_with, askOpenDir_with,
      expandTreeToLevel;
    cbn [opened negb];
    destruct (primaryPkgManager w) eqn:Hm; cbn [andb negb];
    destruct (isPkgUrl url); [ | destruct (isUnpkgUrl url) | | destruct (isUnpkgUrl url)
                             | | destruct (isUnpkgUrl url) | | destruct (isUnpkgUrl url) ];
    try (go; try discriminate; (repeat split; try reflexivity);
         eexists; (split; [split_log|]); (split; [|split]);
         first [ count_calls; reflexivity | reported ]).
  - destruct (String.eqb path "") eqn:Hpath; cbn [negb];
    [ go; (repeat split; try reflexivity);
      eexists; (split; [split_log|]); (split; [|split]);
      first [ count_calls; reflexivity | reported ] | ].
    steps;
    match goal with
    | |- context [exec (openUrl isPkgUrl path next) ?W] =>
        destruct (IH path W) as (Hh & Ha & L & HL & Hs & He & Hr);
        set (w0 := exec (openUrl isPkgUrl path next) W) in *
    end;
    clearbody w0; fields_in HL; fields_in Hs; fields_in He.
    rewrite Hm in Hs, He.
    go. rewrite ?Hh, ?Ha, ?HL. (repeat split; try reflexivity).
    eexists; (split; [split_log|]); (split; [|split]).
    + count_calls. rewrite Hs. cbn [countCalls filter length]. lia.
    + count_calls. rewrite He. cbn [countCalls filter length]. lia.
    + reported.
  - destruct (String.eqb path "") eqn:Hpath; cbn [negb];
    [ go; (repeat split; try reflexivity);
      eexists; (split; [split_log|]); (split; [|split]);
      first [ count_calls; reflexivity | reported ] | ].
    steps;
    match goal with
    | |- context [exec (openUrl isPkgUrl path next) ?W] =>
        destruct (IH path W) as (Hh & Ha & L & HL & Hs & He & Hr);
        set (w0 := exec (openUrl isPkgUrl path next) W) in *
    end;
    clearbody w0; fields_in HL; fields_in Hs; fields_in He.
    rewrite Hm in Hs, He.
    go. rewrite ?Hh, ?Ha, ?HL. (repeat split; try reflexivity).
    eexists; (split; [split_log|]); (split; [|split]).
    + count_calls. rewrite Hs. cbn [countCalls filter length]. lia.
    + count_calls. rewrite He. cbn [countCalls filter length]. lia.
    + reported.
Qed.

(** The calls of [openUrl], oldest first. *)
Lemma openUrl_calls (isPkgUrl : string -> bool) (url : string) (o : OpenOutcome)
    (w : MainWindow) :
  exists L,
    callsSince w (exec (openUrl isPkgUrl url o) w)
      = HistoryButtons_clearHistory :: rev L
    /\ countCalls isSendFinished L
       = failedOpens isPkgUrl (primaryPkgManager w) url o
    /\ countCalls isErrorPopup L
       = failedOpens isPkgUrl (primaryPkgManager w) url o
    /\ finishedThenPopup (rev L) = true.
Proof.
  destruct (openUrl_members isPkgUrl o url w) as (_ & _ & L & HL & Hs & He & Hr).
  exists L. split; [|split; [|split]]; try assumption.
  rewrite (callsSince_app w _ (L ++ [HistoryButtons_clearHistory])).
  - rewrite rev_app_distr. reflexivity.
  - rewrite HL, <- app_assoc. reflexivity.
Qed.

(** X1: the first call of [openUrl] clears the history, and [openUrl]
    always ends with an empty history and the warning armed: for every
    URL, every window, and every sequence of failed opens and directory
    dialogs that may follow. *)
Theorem openUrl_clears_history_and_arms
    (isPkgUrl : string -> bool) (url : string) (o : OpenOutcome) (w : MainWindow) :
  let w' := exec (openUrl isPkgUrl url o) w in
  hd_error (callsSince w w') = Some HistoryButtons_clearHistory
  /\ _historyButtons w' = HistoryButtons.empty
  /\ _enableDirPermissionsWarning w' = true.
Proof.
  cbv zeta.
  destruct (openUrl_members isPkgUrl o url w) as (Hh & Ha & _).
  destruct (openUrl_calls isPkgUrl url o w) as (L & -> & _).
  repeat split; assumption.
Qed.

(** X2: every failed open is reported, and nothing else is.  For each
    open that fails on the way, and [failedOpens] counts them, the
    window calls [sendFinished()] on the tree once and shows the error
    popup once, the popup coming directly after the [sendFinished()];
    an open of a directory fails not at all exactly if the engine
    accepts the URL at once. *)
Theorem openUrl_reports_every_failure
    (isPkgUrl : string -> bool) (url : string) (o : OpenOutcome) (w : MainWindow) :
  let calls := callsSince w (exec (openUrl isPkgUrl url o) w) in
  let failed := failedOpens isPkgUrl (primaryPkgManager w) url o in
  countCalls isSendFinished calls = failed
  /\ countCalls isErrorPopup calls = failed
  /\ finishedThenPopup calls = true
  /\ (isPkgUrl url = false -> isUnpkgUrl url = false ->
      (failed = 0%nat <-> o = Opened)).
Proof.
  cbv zeta.
  destruct (openUrl_calls isPkgUrl url o w) as (L & -> & Hs & He & Hr).
  rewrite !countCalls_cons, !countCalls_rev, Hs, He.
  cbn [isSendFinished isErrorPopup Nat.b2n Nat.add finishedThenPopup].
  repeat split; try assumption;
    destruct o; cbn [failedOpens] in *;
    repeat match goal with H : _ = false |- _ => rewrite H in * end;
    try reflexivity; try discriminate.
Qed.

Lemma openUrl_reports_every_failure_witness :
  let calls := callsSince dataLoaded
                 (exec (openUrl pkgScheme "/nowhere"
                          (OpenFailed "/gone" false (OpenFailed "" false Opened)))
                       dataLoaded) in
  countCalls isErrorPopup calls = 2%nat /\ finishedThenPopup calls = true.
Proof.
  destruct (openUrl_reports_every_failure pkgScheme "/nowhere"
              (OpenFailed "/gone" false (OpenFailed "" false Opened)) dataLoaded)
    as (_ & He & Hr & _).
  split; [exact He | exact Hr].
Defined.

(** ** Reading a cache file *)

(** X3: [readCache] clears the history whatever the file name is, but
    asks the tree to read only for a file name that is not empty; and
    [askReadCache] with an empty file name (the dialog was cancelled)
    leaves the history alone and asks the engine for nothing. *)
Theorem readCache_empty_name (fileName : string) (w : MainWindow) :
  let w' := exec (readCache fileName) w in
  let asked := exec (askReadCache "") w in
  _historyButtons w' = HistoryButtons.empty
  /\ (In (DirTree_readCache fileName) (callsSince w w') <-> fileName <> "")
  /\ countCalls isReadRequest (callsSince w w')
     = (if String.eqb fileName "" then 0 else 1)%nat
  /\ _historyButtons asked = _historyButtons w
  /\ countCalls isReadRequest (callsSince w asked) = 0%nat
  /\ ~ In DirTreeModel_clear (callsSince w asked).
Proof.
  cbv zeta. unfold askReadCache, readCache, clearHistory.
  destruct (String.eqb fileName "") eqn:Hn; cbn [negb]; go;
    (split; [reflexivity|]);
    repeat calls_since; rewrite ?countCalls_rev; count_calls; in_calls;
    (repeat split; try reflexivity);
    try (intros H; decompose [or] H; try discriminate; try tauto; not_in_enablement);
    try (intros _; tauto);
    try (apply String.eqb_eq in Hn; subst; intros H; tauto);
    try (apply String.eqb_neq in Hn; intros; assumption).
Qed.

(** ** Refreshing the whole tree *)

(** The calls of [updateActions]: the 19 commands are set, and the
    history buttons are told to update theirs last. *)
Lemma exec_updateActions_calls (w : MainWindow) :
  exists (f : Action -> bool) (l : list Call),
    exec updateActions w = set_log (l ++ log w) (set_isEnabled f w)
    /\ forallb isEnablementCall l = true
    /\ countCalls isSetEnabled l = 19%nat.
Proof.
  exists (isEnabled (exec updateActions w)),
         (firstn 20 (log (exec updateActions w))).
  split; [|split]; vm_compute; reflexivity.
Qed.

(** X4: [refreshAll] on a tree that has a URL arms the warning and asks
    the engine to read that URL again, with a package read for a
    package URL and a directory read otherwise: the request is its
    first call and its only read request, it resets nothing and keeps
    the history.  A directory read that throws is not caught here:
    the request is then the only call, so that neither
    [sendFinished()] nor an error popup follows and the command
    enablement is not refreshed; in every other case the 19 commands
    are set after the request. *)
Theorem refreshAll_rereads_url (isPkgUrl : string -> bool)
    (path : string) (cross : bool) (o : OpenOutcome) (w : MainWindow) :
  DirTree.url (dirTree w) <> "" ->
  let url := DirTree.url (dirTree w) in
  let w' := exec (refreshAll isPkgUrl path cross o) w in
  let calls := callsSince w w' in
  let thrown := negb (isPkgUrl url) && negb (opened o) in
  _enableDirPermissionsWarning w' = true
  /\ _historyButtons w' = _historyButtons w
  /\ hd_error calls = Some (if isPkgUrl url then DirTreeModel_readPkg url
                            else DirTreeModel_openUrl url)
  /\ countCalls isReadRequest calls = 1%nat
  /\ ~ In DirTree_reset calls
  /\ countCalls isSendFinished calls = 0%nat
  /\ countCalls isErrorPopup calls = 0%nat
  /\ countCalls isSetEnabled calls = (if thrown then 0 else 19)%nat
  /\ (thrown = true -> calls = [DirTreeModel_openUrl url]).
Proof.
  intros Hurl. cbv zeta. unfold refreshAll. steps. fields.
  apply String.eqb_neq in Hurl. rewrite Hurl. cbn [negb].
  destruct (isPkgUrl (DirTree.url (dirTree w))) eqn:Hp; [|destruct o];
    cbn [opened negb andb]; steps;
    try match goal with
        | |- context [exec updateActions ?W] =>
            destruct (exec_updateActions_calls W) as (f & l & E & Hl & Hc);
            rewrite E; clear E
        end;
    fields.
  all: (split; [reflexivity|]); (split; [reflexivity|]);
       repeat calls_since; rewrite ?rev_app_distr; cbn [rev app hd_error];
       rewrite ?countCalls_cons, ?countCalls_app, ?countCalls_rev;
       count_calls; rewrite ?Hc;
       cbn [countCalls filter length isSetEnabled Nat.b2n Nat.add];
       (repeat split; try reflexivity; try discriminate).
  all: in_calls; rewrite <- ?in_rev; intros H; decompose [or] H; try discriminate; try tauto;
       not_in_enablement.
Qed.

Lemma refreshAll_rereads_url_witness :
  let w' := exec (refreshAll pkgScheme "" false (OpenFailed "" false Opened))
                 dataLoaded in
  callsSince dataLoaded w' = [DirTreeModel_openUrl "/data"]
  /\ _historyButtons w' = _historyButtons dataLoaded.
Proof.
  destruct (refreshAll_rereads_url pkgScheme "" false (OpenFailed "" false Opened)
              dataLoaded ltac:(vm_compute; discriminate))
    as (_ & Hh & _ & _ & _ & _ & _ & _ & Hc).
  split; [exact (Hc eq_refl) | exact Hh].
Defined.

(** X5: [refreshAll] on a tree without URL opens the directory dialog;
    when that is cancelled, all that has happened is that the warning
    is armed. *)
Theorem refreshAll_without_url_cancelled (isPkgUrl : string -> bool)
    (cross : bool) (o : OpenOutcome) (w : MainWindow) :
  DirTree.url (dirTree w) = "" ->
  exec (refreshAll isPkgUrl "" cross o) w = set_enableDirPermissionsWarning true w.
Proof.
  intros Hurl. unfold refreshAll, askOpenDir, askOpenDir_with. steps. fields.
  rewrite Hurl. reflexivity.
Qed.

Lemma refreshAll_without_url_cancelled_witness :
  exec (refreshAll pkgScheme "" true Opened) freshWindow
  = set_enableDirPermissionsWarning true freshWindow.
Proof.
  apply (refreshAll_without_url_cancelled pkgScheme true Opened freshWindow).
  vm_compute. reflexivity.
Defined.

(** ** Files that belong to no package *)

(** X6: without a primary package manager [showUnpkgFiles] does
    nothing at all, so that [openUrl] on an [unpkg:/] URL only clears
    the history (and arms the warning): the engine gets no request and
    the model is not cleared. *)
Theorem unpkg_without_pkgManager (isPkgUrl : string -> bool)
    (url : string) (o : OpenOutcome) (w : MainWindow) :
  primaryPkgManager w = false ->
  isPkgUrl url = false ->
  isUnpkgUrl url = true ->
  showUnpkgFiles url o w = (tt, w)
  /\ callsSince w (exec (openUrl isPkgUrl url o) w) = [HistoryButtons_clearHistory].
Proof.
  intros Hm Hp Hu. split.
  - unfold showUnpkgFiles, bind, gets. rewrite Hm. reflexivity.
  - destruct o; cbn [openUrl]; rewrite Hp, Hu;
      unfold showUnpkgFiles, clearHistory; go; try discriminate;
      calls_since; reflexivity.
Qed.

Lemma unpkg_without_pkgManager_witness :
  let w := MainWindow_new true
             {| tm_isVisible := true; tm_canZoomIn := true; tm_canZoomOut := false |}
             true true false in
  callsSince w (exec (openUrl pkgScheme "unpkg:/usr" Opened) w)
  = [HistoryButtons_clearHistory].
Proof.
  cbv zeta.
  apply (unpkg_without_pkgManager pkgScheme "unpkg:/usr" Opened);
    vm_compute; reflexivity.
Defined.

Lemma substring_whole (s : string) : String.substring 0 (String.length s) s = s.
Proof. induction s as [|c s IH]; [reflexivity|]. cbn. now rewrite IH. Qed.

Lemma prefix_cons_inv (c : Ascii.ascii) (p s : string) :
  String.prefix (String c p) s = true ->
  exists s', s = String c s' /\ String.prefix p s' = true.
Proof.
  destruct s as [|d s]; cbn; [discriminate|].
  destruct (Ascii.ascii_dec c d) as [->|]; [|discriminate].
  intros H. now exists s.
Qed.

(** The one directory that [showUnpkgFiles] asks the engine for. *)
Lemma showUnpkgFiles_request (url : string) (o : OpenOutcome) (w : MainWindow) :
  primaryPkgManager w = true ->
  forall dir,
    In (DirTreeModel_openUrl dir) (callsSince w (exec (showUnpkgFiles url o) w))
    <-> dir = stripUnpkgScheme url.
Proof.
  intros Hm dir. unfold showUnpkgFiles.
  destruct o; cbn [opened]; go; try discriminate;
    calls_since; in_calls; rewrite <- ?in_rev.
  all: split;
    [ intros H; decompose [or] H; try discriminate; try tauto;
      [ not_in_enablement | congruence ]
    | intros ->; tauto ].
Qed.

(** X7: what [showUnpkgFiles] asks the engine to read is the URL
    without its [unpkg:] scheme.  With a package manager at hand it
    asks for exactly one directory, the URL stripped of a leading
    [unpkg:], which is the URL itself if it does not start so; and
    [openUrl] on an [unpkg:/] URL asks the engine for the absolute path
    behind the scheme and for no other directory. *)
Theorem showUnpkgFiles_opens_path (isPkgUrl : string -> bool)
    (url : string) (o : OpenOutcome) (w : MainWindow) :
  primaryPkgManager w = true ->
  let direct := callsSince w (exec (showUnpkgFiles url o) w) in
  let viaOpenUrl := callsSince w (exec (openUrl isPkgUrl url o) w) in
  (forall dir, In (DirTreeModel_openUrl dir) direct <-> dir = stripUnpkgScheme url)
  /\ (String.prefix "unpkg:" url = false -> stripUnpkgScheme url = url)
  /\ (isPkgUrl url = false -> isUnpkgUrl url = true ->
      exists rest,
        url = "unpkg:/" ++ rest
        /\ forall dir, In (DirTreeModel_openUrl dir) viaOpenUrl <-> dir = "/" ++ rest).
Proof.
  intros Hm. cbv zeta. split; [|split].
  - apply showUnpkgFiles_request, Hm.
  - intros H. unfold stripUnpkgScheme. now rewrite H.
  - intros Hp Hu.
    assert (Hrest : exists rest, url = "unpkg:/" ++ rest).
    { unfold isUnpkgUrl in Hu.
      repeat (apply prefix_cons_inv in Hu as (? & -> & Hu)).
      eexists. reflexivity. }
    destruct Hrest as (rest & ->). exists rest. split; [reflexivity|].
    intros dir.
    destruct o; cbn [openUrl]; rewrite Hp, Hu;
      unfold showUnpkgFiles, clearHistory; cbn [opened];
      go; try discriminate; rewrite ?substring_whole;
      calls_since; in_calls; rewrite <- ?in_rev;
      (split;
       [ intros H; decompose [or] H; try discriminate; try tauto;
         [ not_in_enablement | congruence ]
       | intros ->; tauto ]).
Qed.

Lemma showUnpkgFiles_opens_path_witness :
  let w := MainWindow_new true
             {| tm_isVisible := true; tm_canZoomIn := true; tm_canZoomOut := false |}
             true true true in
  In (DirTreeModel_openUrl "/usr/lib")
     (callsSince w (exec (openUrl pkgScheme "unpkg:/usr/lib" Opened) w)).
Proof.
  cbv zeta.
  destruct (showUnpkgFiles_opens_path pkgScheme "unpkg:/usr/lib" Opened
              (MainWindow_new true
                 {| tm_isVisible := true; tm_canZoomIn := true; tm_canZoomOut := false |}
                 true true true)
              ltac:(vm_compute; reflexivity)) as (_ & _ & H).
  destruct (H ltac:(vm_compute; reflexivity) ltac:(vm_compute; reflexivity))
    as (rest & Hrest & Hin).
  injection Hrest as <-.
  apply Hin. reflexivity.
Defined.

(** ** Expanding the tree *)

(** X8: [expandTreeToLevel] never asks the tree view for a negative
    depth: below level 1 it collapses the tree instead, and from level
    1 on it asks for the depth one less than the level. *)
Theorem expandTreeToLevel_depth (level : Z) (w : MainWindow) :
  let calls := callsSince w (exec (expandTreeToLevel level) w) in
  depthsNonNegative calls
  /\ calls = (if level <? 1 then [DirTreeView_collapseAll]
              else [DirTreeView_expandToDepth (level - 1)])
  /\ (In DirTreeView_collapseAll calls <-> level <= 0).
Proof.
  cbv zeta. unfold expandTreeToLevel, depthsNonNegative. rewrite exec_if.
  destruct (Z.ltb_spec level 1); steps; calls_since; cbn [rev app];
    (repeat split; try reflexivity); cbn [In]; intros;
    repeat match goal with H : _ \/ _ |- _ => destruct H end;
    try discriminate; try contradiction; try lia.
  - left. reflexivity.
  - match goal with H : DirTreeView_expandToDepth _ = _ |- _ => injection H as <- end.
    lia.
Qed.

(** ** The warning about unreadable directories *)

(** X9: [showDirPermissionsWarning] is idempotent: a second call right
    after a first one changes nothing at all, the log of calls
    included. *)
Theorem showDirPermissionsWarning_twice (w : MainWindow) :
  exec showDirPermissionsWarning (exec showDirPermissionsWarning w)
  = exec showDirPermissionsWarning w.
Proof.
  unfold showDirPermissionsWarning.
  destruct (_dirPermissionsWarning w) eqn:Hs;
  destruct (_enableDirPermissionsWarning w) eqn:Ha;
  go; try discriminate; reflexivity.
Qed.

(** X10: an aborted scan never puts up the warning, whatever the tree
    reports and whether or not the warning is armed; it leaves the
    arming flag and the panel pointer as they are.  A finished scan
    puts it up exactly when the tree has a first toplevel item with
    unreadable subdirectories, no panel is up and the warning is
    armed; that sets the panel pointer and disarms the warning. *)
Theorem warning_only_after_finished (w : MainWindow) :
  let aborted := exec readingAborted w in
  let finished := exec readingFinished w in
  let due :=
    (exists top, DirTree.firstToplevel (dirTree w) = Some top
                 /\ 0 < FileInfo.errSubDirCount top)
    /\ _dirPermissionsWarning w = false
    /\ _enableDirPermissionsWarning w = true in
  panelsShown (log aborted) = panelsShown (log w)
  /\ _enableDirPermissionsWarning aborted = _enableDirPermissionsWarning w
  /\ _dirPermissionsWarning aborted = _dirPermissionsWarning w
  /\ (due -> panelsShown (log finished) = S (panelsShown (log w))
             /\ _dirPermissionsWarning finished = true
             /\ _enableDirPermissionsWarning finished = false)
  /\ (~ due -> panelsShown (log finished) = panelsShown (log w)
               /\ _dirPermissionsWarning finished = _dirPermissionsWarning w
               /\ _enableDirPermissionsWarning finished
                  = _enableDirPermissionsWarning w).
Proof.
  cbv zeta.
  destruct (readingAborted_members w) as (_ & _ & _ & _ & _ & _ & Ha & Hd & Hp).
  destruct (readingFinished_members w) as (_ & _ & _ & _ & _ & _ & Ha' & Hd' & Hp').
  cbv zeta in Ha', Hd', Hp'. rewrite Ha, Hd, Hp, Ha', Hd', Hp'.
  split; [reflexivity | split; [reflexivity | split; [reflexivity|]]].
  destruct (DirTree.firstToplevel (dirTree w)) as [top|] eqn:Htop; cbn [notNull deref andb].
  - destruct (Z.gtb_spec (FileInfo.errSubDirCount top) 0) as [Herr|Herr];
    destruct (_dirPermissionsWarning w) eqn:Hshown;
    destruct (_enableDirPermissionsWarning w) eqn:Harmed; cbn;
    (split; [ intros [[top' [Ht Hpos]] [H1 H2]] | intros Hnot ]);
    try discriminate; try (injection Ht as <-; lia);
    try (repeat split; (reflexivity || lia)).
    exfalso. apply Hnot. split; [exists top; split; [reflexivity | exact Herr] | split; reflexivity].
  - cbn. split.
    + intros [[top' [Ht _]] _]. discriminate.
    + intros _. rewrite ?andb_false_r, ?orb_false_r, ?Nat.add_0_r, ?andb_true_r.
      repeat split; reflexivity.
Qed.

Lemma warning_only_after_finished_witness :
  panelsShown (log (exec readingFinished lockedReading))
  = S (panelsShown (log lockedReading))
  /\ _enableDirPermissionsWarning (exec readingFinished lockedReading) = false.
Proof.
  destruct (warning_only_after_finished lockedReading) as (_ & _ & _ & H & _).
  destruct H as (H1 & _ & H3).
  - split; [exists lockedData; split; [reflexivity | reflexivity] | ].
    split; vm_compute; reflexivity.
  - split; assumption.
Defined.

(** X11: in a window fresh from the constructor the warning is not
    armed, so that until the first open or refresh-all no panel is put
    up, whatever else happens: scans that are started by a cache file
    or by the package dialog never warn about unreadable
    directories. *)
Theorem no_warning_before_first_open (isPkgUrl : string -> bool)
    (fallbackDefault : bool) (tm : TreemapView)
    (detailsVisible showTreemap pkgManager : bool) (es : list Event) :
  forallb (fun e => negb (isOpenOrRefreshAll e)) es = true ->
  let w0 := MainWindow_new fallbackDefault tm detailsVisible showTreemap pkgManager in
  let w' := run isPkgUrl w0 es in
  panelsShown (log w') = 0%nat
  /\ _enableDirPermissionsWarning w' = false.
Proof.
  intros Hes w0 w'.
  destruct (warningBudget_run isPkgUrl es w0 Hes) as [H1 H2].
  fold w' in H1, H2. unfold warningBudget in H2.
  assert (H0 : panelsShown (log w0) = 0%nat
               /\ _enableDirPermissionsWarning w0 = false).
  { subst w0. unfold MainWindow_new. steps. run_ua. rewrite exec_when.
    destruct showTreemap; fields; count_panels; split; reflexivity. }
  destruct H0 as [Hp Ha]. rewrite Hp, Ha in H2. cbn [Nat.b2n] in H2.
  destruct (_enableDirPermissionsWarning w'); cbn [Nat.b2n] in H2; split;
    (reflexivity || lia).
Qed.

Lemma no_warning_before_first_open_witness :
  panelsShown
    (log (run pkgScheme freshWindow
            [ CmdAskReadCache "/tmp/data.cache";
              SigStartingReading "/data" [lockedData];
              SigFinished [lockedData; dataLogs] ])) = 0%nat.
Proof.
  apply (no_warning_before_first_open pkgScheme true
           {| tm_isVisible := true; tm_canZoomIn := true; tm_canZoomOut := false |}
           true true true
           [ CmdAskReadCache "/tmp/data.cache";
             SigStartingReading "/data" [lockedData];
             SigFinished [lockedData; dataLogs] ]).
  vm_compute. reflexivity.
Defined.

(** ** The enablement of the commands *)

(** [updateActions] sets every command to its [enablement]. *)
Lemma updateActions_enablement (w : MainWindow) (a : Action) :
  isEnabled (exec updateActions w) a
  = enablement (dirTree w) (selectionModel w) (treemapView w) a.
Proof. destruct a; reflexivity. Qed.

(** What [updateActions] computes for the commands on the selection. *)
Lemma selection_commands (w : MainWindow) :
  let enabled := isEnabled (exec updateActions w) in
  let selectedItems := SelectionModel.selectedItems (selectionModel w) in
  let sel := FileInfoSet.first selectedItems in
  let reading := DirTree.isBusy (dirTree w) in
  let top := DirTree.firstToplevel (dirTree w) in
  let oneDirSelected :=
    (FileInfoSet.size selectedItems =? 1) && notNull sel
    && deref sel FileInfo.isDir && negb (deref sel FileInfo.isPkgInfo) in
  enabled actionRefreshSelected =
    (FileInfoSet.size selectedItems =? 1)
    && negb (deref sel FileInfo.isExcluded)
    && negb (deref sel FileInfo.isMountPoint)
    && negb (notNull top && deref top FileInfo.isPkgInfo)
  /\ enabled actionContinueReadingAtMountPoint =
       oneDirSelected && deref sel FileInfo.isMountPoint
  /\ enabled actionReadExcludedDirectory =
       oneDirSelected && deref sel FileInfo.isExcluded
  /\ enabled actionFileSizeStats =
       negb reading && (FileInfoSet.isEmpty selectedItems || oneDirSelected)
  /\ enabled actionFileTypeStats = enabled actionFileSizeStats
  /\ enabled actionFileAgeStats = enabled actionFileSizeStats.
Proof. cbv zeta. rewrite !updateActions_enablement. repeat split. Qed.

(** X12: the three commands that are wired to [refreshSelected]
    exclude one another as far as they must: refresh-selected is never
    enabled together with continue-reading-at-mount-point, nor together
    with read-excluded-directory. *)
Theorem refresh_commands_exclusive (w : MainWindow) :
  let enabled := isEnabled (exec updateActions w) in
  enabled actionRefreshSelected && enabled actionContinueReadingAtMountPoint = false
  /\ enabled actionRefreshSelected && enabled actionReadExcludedDirectory = false.
Proof.
  cbv zeta.
  destruct (selection_commands w) as (-> & -> & -> & _).
  destruct (deref _ FileInfo.isMountPoint), (deref _ FileInfo.isExcluded);
    rewrite ?andb_false_r, ?andb_true_r; cbn [negb]; rewrite ?andb_false_r;
    split; try reflexivity; cbn; rewrite ?andb_false_r; reflexivity.
Qed.

(** X13: while the tree is being read, stop-reading is the one command
    of the session that is enabled: refresh-all, read-cache,
    write-cache, move-to-trash and the three statistics are all
    disabled; on an idle tree stop-reading is disabled. *)
Theorem busy_disables_commands (w : MainWindow) :
  let enabled := isEnabled (exec updateActions w) in
  enabled actionStopReading = DirTree.isBusy (dirTree w)
  /\ forall a,
       In a [ actionRefreshAll; actionAskReadCache; actionAskWriteCache;
              actionMoveToTrash; actionFileSizeStats; actionFileTypeStats;
              actionFileAgeStats ] ->
       DirTree.isBusy (dirTree w) && enabled a = false.
Proof.
  cbv zeta. split; [reflexivity|].
  intros a Ha. cbn [In] in Ha.
  destruct (selection_commands w) as (_ & _ & _ & Hsize & Htype & Hage).
  assert (Hidle : forall a', isEnabled (exec updateActions w) a'
                             = negb (DirTree.isBusy (dirTree w)) ->
                  DirTree.isBusy (dirTree w) && isEnabled (exec updateActions w) a'
                  = false)
    by (intros a' ->; now destruct (DirTree.isBusy (dirTree w))).
  decompose [or] Ha; subst; try contradiction;
    try (apply Hidle; reflexivity).
  - rewrite moveToTrash_value. cbv zeta.
    destruct (DirTree.isBusy (dirTree w)); [now rewrite andb_false_r | reflexivity].
  - rewrite Hsize. now destruct (DirTree.isBusy (dirTree w)).
  - rewrite Htype, Hsize. now destruct (DirTree.isBusy (dirTree w)).
  - rewrite Hage, Hsize. now destruct (DirTree.isBusy (dirTree w)).
Qed.

(** X14: the three statistics commands always go together, and they
    are enabled exactly when the tree is idle and either nothing is
    selected or the selection is one directory that is no package. *)
Theorem statistics_enabled_iff (w : MainWindow) :
  let enabled := isEnabled (exec updateActions w) in
  let sel := SelectionModel.selectedItems (selectionModel w) in
  enabled actionFileTypeStats = enabled actionFileSizeStats
  /\ enabled actionFileAgeStats = enabled actionFileSizeStats
  /\ (enabled actionFileSizeStats = true <->
      DirTree.isBusy (dirTree w) = false
      /\ (sel = [] \/ exists i, sel = [i] /\ FileInfo.isDir i = true
                                /\ FileInfo.isPkgInfo i = false)).
Proof.
  cbv zeta.
  destruct (selection_commands w) as (_ & _ & _ & Hsize & -> & ->).
  split; [reflexivity | split; [reflexivity|]].
  rewrite Hsize, andb_true_iff, negb_true_iff, orb_true_iff, !andb_true_iff,
    negb_true_iff, size_one.
  split.
  - intros [Hb [He | [[[[i Hi] _] Hd] Hp]]]; split; trivial.
    + left. now destruct (SelectionModel.selectedItems (selectionModel w)).
    + right. exists i. rewrite Hi in Hd, Hp. now cbn in Hd, Hp.
  - intros [Hb [Hs | (i & Hi & Hd & Hp)]]; split; trivial.
    + left. now rewrite Hs.
    + right. rewrite Hi. cbn. rewrite Hd, Hp. repeat split; eauto.
Qed.

(** The calls of [updateActions] are the 20 newest entries of the log. *)
Lemma updateActions_calls (w : MainWindow) :
  callsSince w (exec updateActions w)
  = rev (firstn 20 (log (exec updateActions w))).
Proof.
  apply callsSince_app. vm_compute. reflexivity.
Qed.

Lemma updateActions_calls_same (w1 w2 : MainWindow) :
  dirTree w1 = dirTree w2 ->
  selectionModel w1 = selectionModel w2 ->
  treemapView w1 = treemapView w2 ->
  firstn 20 (log (exec updateActions w1)) = firstn 20 (log (exec updateActions w2)).
Proof.
  intros Ht Hs Hm. destruct w1, w2. cbn in Ht, Hs, Hm. subst.
  vm_compute. reflexivity.
Qed.

Lemma updateActions_calls_shape (w : MainWindow) :
  exists l, firstn 20 (log (exec updateActions w))
            = HistoryButtons_updateActions :: l
            /\ forallb isSetEnabled l = true
            /\ length l = 19%nat.
Proof.
  exists (firstn 19 (skipn 1 (log (exec updateActions w)))).
  split; [|split]; vm_compute; reflexivity.
Qed.

(** X15: what [updateActions] does is decided by the tree, the
    selection model and the treemap view alone.  On two windows that
    agree on these three it makes the same calls, whatever the command
    flags, the history, the timers, the future selection and the
    warning are: it sets 19 commands, each to the same value on both
    windows, and its last call leaves go-back and go-forward to the
    history buttons, which [updateActions] does not set itself. *)
Theorem updateActions_reads_only (w1 w2 : MainWindow) :
  dirTree w1 = dirTree w2 ->
  selectionModel w1 = selectionModel w2 ->
  treemapView w1 = treemapView w2 ->
  let calls := callsSince w1 (exec updateActions w1) in
  calls = callsSince w2 (exec updateActions w2)
  /\ (exists l, calls = (l ++ [HistoryButtons_updateActions])%list
                /\ forallb isSetEnabled l = true
                /\ length l = 19%nat)
  /\ (forall a, isEnabled (exec updateActions w1) a
                = isEnabled (exec updateActions w2) a).
Proof.
  intros Ht Hs Hm. cbv zeta. split; [|split].
  - rewrite (updateActions_calls w1), (updateActions_calls w2).
    f_equal. now apply updateActions_calls_same.
  - rewrite (updateActions_calls w1).
    destruct (updateActions_calls_shape w1) as (l & -> & Hl & Hn).
    exists (rev l). cbn [rev]. split; [reflexivity|]. split.
    + apply forallb_rev_true, Hl.
    + now rewrite length_rev.
  - intros a. rewrite !updateActions_enablement, Ht, Hs, Hm. reflexivity.
Qed.

Lemma updateActions_reads_only_witness :
  let other := set_treeExpandTimer true
                 (set_enableDirPermissionsWarning true browsedLogs) in
  callsSince browsedLogs (exec updateActions browsedLogs)
  = callsSince other (exec updateActions other).
Proof.
  cbv zeta.
  exact (proj1 (updateActions_reads_only browsedLogs
                  (set_treeExpandTimer true
                     (set_enableDirPermissionsWarning true browsedLogs))
                  ltac:(vm_compute; reflexivity)
                  ltac:(vm_compute; reflexivity)
                  ltac:(vm_compute; reflexivity))).
Defined.

(** X16: go-up is enabled exactly for a current item deeper than
    level 1.  Go-to-toplevel needs a tree that is not empty and is then
    enabled with no current item or with one deeper than level 1: so
    with the current item on level 1 both commands are disabled, and
    wherever go-up is enabled on a tree that is not empty,
    go-to-toplevel is enabled as well. *)
Theorem navigation_enabled (w : MainWindow) :
  let enabled := isEnabled (exec updateActions w) in
  let current := SelectionModel.currentItem (selectionModel w) in
  let top := DirTree.firstToplevel (dirTree w) in
  (enabled actionGoUp = true <->
     exists i, current = Some i /\ 1 < FileInfo.treeLevel i)
  /\ (enabled actionGoToToplevel = true <->
        top <> None /\ (current = None \/ enabled actionGoUp = true))
  /\ (forall i, current = Some i -> FileInfo.treeLevel i <= 1 ->
        enabled actionGoUp = false /\ enabled actionGoToToplevel = false).
Proof.
  cbv zeta. rewrite !updateActions_enablement. unfold enablement.
  destruct (SelectionModel.currentItem (selectionModel w)) as [i|];
  destruct (DirTree.firstToplevel (dirTree w)) as [t|]; cbn [notNull deref negb andb orb].
  all: repeat split; intros;
       repeat match goal with
              | H : exists _, _ |- _ => destruct H as (? & ? & ?)
              | H : _ /\ _ |- _ => destruct H
              | H : Some _ = Some _ |- _ => injection H as <-
              | H : (_ >? _) = true |- _ => apply Z.gtb_lt in H
              | H : _ \/ _ |- _ => destruct H
              | |- _ /\ _ => split
              end;
       try discriminate; try congruence; try tauto;
       try (apply Z.gtb_lt; lia);
       try (eexists; split; [reflexivity | lia]);
       try (destruct (Z.gtb_spec (FileInfo.treeLevel i) 1); (reflexivity || lia)).
  all: try (right; assumption).
  all: try (right; apply Z.gtb_lt; assumption).
Qed.

(** X17: [selectedDirOrRoot] never yields a selected item that is no
    directory: what it returns is the first selected item if that is a
    directory, and the first toplevel item in every other case; it
    returns nothing only for an empty tree. *)
Theorem selectedDirOrRoot_dir_or_toplevel (w : MainWindow) :
  let sel := FileInfoSet.first (SelectionModel.selectedItems (selectionModel w)) in
  let top := DirTree.firstToplevel (dirTree w) in
  (forall i, selectedDirOrRoot w = Some i ->
     (sel = Some i /\ FileInfo.isDir i = true) \/ top = Some i)
  /\ (forall i, sel = Some i -> FileInfo.isDir i = true -> selectedDirOrRoot w = Some i)
  /\ (forall i, sel = Some i -> FileInfo.isDir i = false -> selectedDirOrRoot w = top)
  /\ (sel = None -> selectedDirOrRoot w = top)
  /\ (selectedDirOrRoot w = None -> top = None).
Proof.
  cbv zeta. unfold selectedDirOrRoot.
  destruct (FileInfoSet.first _) as [s|]; cbn [notNull deref negb orb].
  - destruct (FileInfo.isDir s) eqn:Hd; cbn [negb];
      repeat split; intros;
      repeat match goal with H : Some _ = Some _ |- _ => injection H as <- end;
      try congruence; try discriminate; auto.
  - repeat split; intros; try discriminate; auto.
Qed.

Lemma selectedDirOrRoot_dir_or_toplevel_witness :
  selectedDirOrRoot logsSelected = Some dataLogs.
Proof.
  apply (proj1 (proj2 (selectedDirOrRoot_dir_or_toplevel logsSelected)));
    vm_compute; reflexivity.
Defined.

(** ** Refreshing the selected item *)

Lemma locate_url (tr : DirTree.t) (u : string) (i : FileInfo.t) :
  DirTree.locate tr u = Some i -> FileInfo.url i = u /\ In i (DirTree.items tr).
Proof.
  unfold DirTree.locate. intros H. apply find_some in H as [Hin Hu].
  apply String.eqb_eq in Hu. split; assumption.
Qed.

(** X19: refresh-selected round trip.  The user refreshes with [i]
    first in the selection; the engine starts reading and finishes
    with a tree in which an item is found under the URL of [i].  Then
    that item, which has the URL of [i], is the current branch, the
    future selection is used up, and the settle-timer is not
    pending. *)
Theorem refreshSelected_restores_selection (isPkgUrl : string -> bool)
    (w : MainWindow) (i i' : FileInfo.t) (rest : list FileInfo.t)
    (url : string) (partial items : list FileInfo.t) :
  SelectionModel.selectedItems (selectionModel w) = i :: rest ->
  FileInfo.url i <> "" ->
  DirTree.locate {| DirTree.url := url; DirTree.isBusy := false;
                    DirTree.items := items |} (FileInfo.url i) = Some i' ->
  let w1 := exec (refreshSelected isPkgUrl) w in
  let w2 := exec (scanStarted isPkgUrl url partial) w1 in
  let w3 := exec (scanFinished items) w2 in
  FutureSelection.targetPath (_futureSelection w2) = FileInfo.url i
  /\ SelectionModel.currentBranch (selectionModel w3) = Some i'
  /\ FileInfo.url i' = FileInfo.url i
  /\ FutureSelection.isEmpty (_futureSelection w3) = true
  /\ _treeExpandTimer w3 = false.
Proof.
  intros Hsel Hurl Hloc w1 w2 w3.
  assert (H1 : _futureSelection w1
               = FutureSelection.set (Some i) (_futureSelection w)).
  { subst w1. unfold refreshSelected. steps. run_ua. fields.
    destruct (busyDisplay_members isPkgUrl w) as (_ & _ & _ & Hf & Hs & _).
    now rewrite Hf, Hs, Hsel. }
  assert (H2 : _futureSelection w2 = _futureSelection w1
               /\ DirTree.url (dirTree w2) = url).
  { subst w2. unfold scanStarted, startingReading. steps.
    set (w0 := set_log _ (set_dirTree _ w1)).
    destruct (busyDisplay_members isPkgUrl w0) as (Ht & _ & _ & Hf & _).
    rewrite Hf, Ht. split; reflexivity. }
  destruct H2 as [H2 Hu2].
  assert (Hpath : FutureSelection.targetPath (_futureSelection w2) = FileInfo.url i)
    by (rewrite H2, H1; reflexivity).
  assert (Hne : FutureSelection.isEmpty (_futureSelection w2) = false).
  { unfold FutureSelection.isEmpty. rewrite Hpath. now apply String.eqb_neq. }
  destruct (scanFinished_members w2 items w3 (or_introl eq_refl))
    as (_ & _ & He & Hf & Hs & _).
  assert (Hsub : FutureSelection.subtree (_futureSelection w2)
                   {| DirTree.url := DirTree.url (dirTree w2);
                      DirTree.isBusy := false;
                      DirTree.items := items |} = Some i').
  { unfold FutureSelection.subtree. rewrite Hpath, Hu2, Hloc. reflexivity. }
  rewrite Hsub, Hne in Hf, Hs. rewrite Hne in He. cbn [negb andb notNull] in *.
  split; [exact Hpath|].
  split; [now rewrite Hs|].
  split; [exact (proj1 (locate_url _ _ _ Hloc))|].
  split; [now rewrite Hf | now rewrite He, andb_false_r].
Qed.

Lemma refreshSelected_restores_selection_witness :
  let w1 := exec (refreshSelected pkgScheme) logsSelected in
  let w2 := exec (scanStarted pkgScheme "/data" [data]) w1 in
  let w3 := exec (scanFinished [data; dataMnt; dataLogs]) w2 in
  SelectionModel.currentBranch (selectionModel w3) = Some dataLogs.
Proof.
  exact (proj1 (proj2 (refreshSelected_restores_selection pkgScheme logsSelected
                         dataLogs dataLogs [] "/data" [data] [data; dataMnt; dataLogs]
                         ltac:(vm_compute; reflexivity)
                         ltac:(vm_compute; discriminate)
                         ltac:(vm_compute; reflexivity)))).
Defined.

(** ** The busy display *)

(** What [busyDisplay] leaves in the members that [updateActions]
    reads and writes, and when it closes the window of unreadable
    directories. *)
Lemma busyDisplay_display (isPkgUrl : string -> bool) (w : MainWindow) :
  let w' := exec (busyDisplay isPkgUrl) w in
  treemapView w' = treemapView w
  /\ (forall a, isEnabled w' a
                = enablement (dirTree w) (selectionModel w) (treemapView w) a)
  /\ (In UnreadableDirsWindow_close (callsSince w w')
      <-> _unreadableDirsWindow w = true).
Proof.
  cbv zeta. unfold busyDisplay, updateTimer_start, treeExpandTimer_start. steps.
  set (w0 := set_log (TreemapView_disable :: log w) w).
  assert (Hen : forall a, isEnabled (exec updateActions w0) a
                = enablement (dirTree w) (selectionModel w) (treemapView w) a)
    by (intros a; rewrite updateActions_enablement; reflexivity).
  destruct (exec_updateActions w0) as (f & l & E & Hl).
  rewrite E in Hen. rewrite E. subst w0.
  cbn [isEnabled set_log set_isEnabled] in Hen. clear E. fields.
  destruct (_unreadableDirsWindow w) eqn:Hw;
  destruct (isPkgUrl (DirTree.url (dirTree w)));
  destruct (SelectionModel.currentBranch (selectionModel w));
  go; try discriminate;
  (repeat split; try reflexivity; try exact Hen);
  try (intros _; calls_since; in_calls; tauto);
  calls_since; in_calls; intros H; decompose [or] H;
  try discriminate; try tauto; not_in_enablement.
Qed.

(** X20: [busyDisplay] may safely run twice, as it does when a
    refresh of the selected item calls it and the engine then reports
    that reading has started: the second run leaves the tree, the
    selection, the future selection, the settle-timer and the
    enablement of every command as the first run left them, and after
    either run the ticker is running.  In each run the window of
    unreadable directories is told to close exactly if the pointer to
    it is not 0 when that run starts. *)
Theorem busyDisplay_twice (isPkgUrl : string -> bool) (w : MainWindow) :
  let w1 := exec (busyDisplay isPkgUrl) w in
  let w2 := exec (busyDisplay isPkgUrl) w1 in
  dirTree w2 = dirTree w1
  /\ selectionModel w2 = selectionModel w1
  /\ _futureSelection w2 = _futureSelection w1
  /\ _treeExpandTimer w2 = _treeExpandTimer w1
  /\ (forall a, isEnabled w2 a = isEnabled w1 a)
  /\ _updateTimer w1 = true /\ _updateTimer w2 = true
  /\ (In UnreadableDirsWindow_close (callsSince w w1)
      <-> _unreadableDirsWindow w = true)
  /\ (In UnreadableDirsWindow_close (callsSince w1 w2)
      <-> _unreadableDirsWindow w1 = true).
Proof.
  intros w1 w2.
  destruct (busyDisplay_members isPkgUrl w) as (Ht1 & Hu1 & He1 & Hf1 & Hs1 & _).
  destruct (busyDisplay_members isPkgUrl w1) as (Ht2 & Hu2 & He2 & Hf2 & Hs2 & _).
  destruct (busyDisplay_display isPkgUrl w) as (Hm1 & Hen1 & Hc1).
  destruct (busyDisplay_display isPkgUrl w1) as (Hm2 & Hen2 & Hc2).
  fold w1 in Ht1, Hu1, He1, Hf1, Hs1, Hm1, Hen1, Hc1.
  fold w1 w2 in Ht2, Hu2, He2, Hf2, Hs2, Hm2, Hen2, Hc2.
  cbv zeta in He1, He2.
  split; [exact Ht2|]. split; [exact Hs2|]. split; [exact Hf2|].
  split.
  { rewrite He2, He1, Ht1, Hs1.
    destruct (negb _ && negb _); reflexivity. }
  split.
  { intros a. rewrite Hen2, Hen1, Ht1, Hs1, Hm1. reflexivity. }
  split; [exact Hu1|]. split; [exact Hu2|].
  split; [exact Hc1 | exact Hc2].
Qed.

(** ** Tree layouts *)

Lemma layoutOf_saveLayout_same (key : string) (s : Layouts) (l : TreeLayout.t) :
  layoutOf key (_layouts s) = Some l ->
  layoutOf key (_layouts (saveLayout key s))
  = Some {| TreeLayout.name := TreeLayout.name l;
            TreeLayout.showCurrentPath := actionShowCurrentPath_isChecked s;
            TreeLayout.showDetailsPanel := actionShowDetailsPanel_isChecked s |}.
Proof.
  unfold layoutOf, saveLayout. cbn [_layouts].
  induction (_layouts s) as [|[k v] ls IH]; cbn [find map fst snd]; [discriminate|].
  destruct (String.eqb k key) eqn:Hk; cbn [fst snd].
  - rewrite Hk. cbn. now intros [= ->].
  - rewrite Hk. exact IH.
Qed.

Lemma layoutOf_saveLayout_other (key name : string) (s : Layouts) :
  name <> key ->
  layoutOf name (_layouts (saveLayout key s)) = layoutOf name (_layouts s).
Proof.
  intros Hne. unfold layoutOf, saveLayout. cbn [_layouts].
  induction (_layouts s) as [|[k v] ls IH]; cbn [find map fst snd]; [reflexivity|].
  destruct (String.eqb k key) eqn:Hk; cbn [fst snd].
  - apply String.eqb_eq in Hk. subst k.
    destruct (String.eqb key name) eqn:Hn.
    + apply String.eqb_eq in Hn. congruence.
    + exact IH.
  - destruct (String.eqb k name); [reflexivity | exact IH].
Qed.

Lemma names_saveLayout (key : string) (s : Layouts) :
  map fst (_layouts (saveLayout key s)) = map fst (_layouts s).
Proof.
  unfold saveLayout. cbn [_layouts]. rewrite map_map. apply map_ext.
  intros [k v]. cbn. now destruct (String.eqb k key).
Qed.

(** X21: layouts round trip.  With layout [a] current, the user sets
    the two view options, switches to another layout [b], changes the
    options at will and switches back to [a]: the options are again as
    they were when [a] was left. *)
Theorem changeLayout_round_trip (s : Layouts) (a b : string)
    (la lb : TreeLayout.t) (sender sender' : option string)
    (currentPath detailsPanel currentPath' detailsPanel' : bool) :
  a <> "" -> b <> "" -> a <> b ->
  _currentLayout s = Some a ->
  layoutOf a (_layouts s) = Some la ->
  layoutOf b (_layouts s) = Some lb ->
  let away := changeLayout b sender (toggleViewOptions currentPath detailsPanel s) in
  let back := changeLayout a sender'
                (toggleViewOptions currentPath' detailsPanel' away) in
  actionShowCurrentPath_isChecked back = currentPath
  /\ actionShowDetailsPanel_isChecked back = detailsPanel
  /\ _currentLayout back = Some a
  /\ actionShowCurrentPath_isChecked away = TreeLayout.showCurrentPath lb
  /\ actionShowDetailsPanel_isChecked away = TreeLayout.showDetailsPanel lb.
Proof.
  intros Ha Hb Hab Hcur Hla Hlb.
  apply String.eqb_neq in Ha, Hb.
  set (s0 := toggleViewOptions currentPath detailsPanel s).
  assert (Haway : changeLayout b sender s0
                  = applyLayout lb
                      {| _layoutName := b; _currentLayout := Some b;
                         _layouts := _layouts (saveLayout a s0);
                         actionShowCurrentPath_isChecked := currentPath;
                         actionShowDetailsPanel_isChecked := detailsPanel;
                         headerTweaker_layout := b |}).
  { unfold changeLayout. rewrite Hb. cbn [_currentLayout toggleViewOptions s0].
    subst s0. cbn [_currentLayout toggleViewOptions]. rewrite Hcur.
    rewrite layoutOf_saveLayout_other by congruence.
    cbn [_layouts toggleViewOptions]. rewrite Hlb. reflexivity. }
  intros away back. subst away back. rewrite Haway.
  set (s1 := toggleViewOptions currentPath' detailsPanel' _).
  assert (Hla1 : layoutOf a (_layouts s1)
                 = Some {| TreeLayout.name := TreeLayout.name la;
                           TreeLayout.showCurrentPath := currentPath;
                           TreeLayout.showDetailsPanel := detailsPanel |}).
  { subst s1. cbn [_layouts toggleViewOptions applyLayout].
    rewrite (layoutOf_saveLayout_same a s0 la Hla). reflexivity. }
  assert (Hback : exists ls,
             changeLayout a sender' s1
             = applyLayout {| TreeLayout.name := TreeLayout.name la;
                              TreeLayout.showCurrentPath := currentPath;
                              TreeLayout.showDetailsPanel := detailsPanel |}
                 {| _layoutName := a; _currentLayout := Some a;
                    _layouts := ls;
                    actionShowCurrentPath_isChecked := currentPath';
                    actionShowDetailsPanel_isChecked := detailsPanel';
                    headerTweaker_layout := a |}).
  { unfold changeLayout. rewrite Ha.
    assert (Hc1 : _currentLayout s1 = Some b) by reflexivity.
    cbn [_currentLayout]. rewrite Hc1.
    rewrite layoutOf_saveLayout_other by congruence.
    cbn [_layouts]. rewrite Hla1. eexists. reflexivity. }
  destruct Hback as [ls ->]. repeat split; reflexivity.
Qed.

Lemma changeLayout_round_trip_witness :
  let s := changeLayout "L2" None
             {| _layoutName := "";
                _currentLayout := None;
                _layouts := createLayouts true true;
                actionShowCurrentPath_isChecked := true;
                actionShowDetailsPanel_isChecked := true;
                headerTweaker_layout := "" |} in
  let away := changeLayout "L3" None (toggleViewOptions false true s) in
  let back := changeLayout "L2" None (toggleViewOptions true true away) in
  actionShowCurrentPath_isChecked back = false
  /\ actionShowDetailsPanel_isChecked back = true.
Proof.
  cbv zeta.
  destruct (changeLayout_round_trip
              (changeLayout "L2" None
                 {| _layoutName := "";
                    _currentLayout := None;
                    _layouts := createLayouts true true;
                    actionShowCurrentPath_isChecked := true;
                    actionShowDetailsPanel_isChecked := true;
                    headerTweaker_layout := "" |})
              "L2" "L3"
              {| TreeLayout.name := "L2"; TreeLayout.showCurrentPath := true;
                 TreeLayout.showDetailsPanel := true |}
              {| TreeLayout.name := "L3"; TreeLayout.showCurrentPath := true;
                 TreeLayout.showDetailsPanel := false |}
              None None false true true true
              ltac:(discriminate) ltac:(discriminate) ltac:(discriminate)
              eq_refl eq_refl eq_refl) as (H1 & H2 & _).
  split; assumption.
Defined.

(** X22: switching to a layout name that the map does not have keeps
    the view options and the current layout (whose stored flags are
    brought up to date first); only the layout name and the header of
    the tree view follow the unknown name.  An empty name without a
    sender stands for [L2]. *)
Theorem changeLayout_unknown_name (s : Layouts) (name : string)
    (sender : option string) :
  name <> "" ->
  layoutOf name (_layouts s) = None ->
  let s' := changeLayout name sender s in
  actionShowCurrentPath_isChecked s' = actionShowCurrentPath_isChecked s
  /\ actionShowDetailsPanel_isChecked s' = actionShowDetailsPanel_isChecked s
  /\ _currentLayout s' = _currentLayout s
  /\ _layoutName s' = name
  /\ headerTweaker_layout s' = name
  /\ changeLayout "" None s = changeLayout "L2" None s.
Proof.
  intros Hn Hnone. apply String.eqb_neq in Hn. cbv zeta.
  assert (Hl2 : changeLayout "" None s = changeLayout "L2" None s) by reflexivity.
  unfold changeLayout at 1 2 3 4 5. rewrite Hn. cbn [_currentLayout].
  destruct (_currentLayout s) as [key|] eqn:Hcur.
  - assert (Hnone' : layoutOf name (_layouts (saveLayout key
               {| _layoutName := name; _currentLayout := Some key;
                  _layouts := _layouts s;
                  actionShowCurrentPath_isChecked := actionShowCurrentPath_isChecked s;
                  actionShowDetailsPanel_isChecked := actionShowDetailsPanel_isChecked s;
                  headerTweaker_layout := name |})) = None).
    { destruct (String.eqb name key) eqn:Hk.
      - apply String.eqb_eq in Hk. subst key.
        unfold layoutOf, saveLayout in *. cbn [_layouts].
        revert Hnone. induction (_layouts s) as [|[k v] ls IH];
          cbn [find map fst snd]; [reflexivity|].
        destruct (String.eqb k name) eqn:Hk; cbn [fst snd]; [discriminate|].
        rewrite Hk. exact IH.
      - rewrite layoutOf_saveLayout_other; [exact Hnone|].
        now apply String.eqb_neq. }
    rewrite Hnone'. repeat split; trivial.
  - cbn [_layouts]. rewrite Hnone. repeat split; trivial.
Qed.

Lemma changeLayout_unknown_name_witness :
  let s := {| _layoutName := "L1";
              _currentLayout := Some "L1";
              _layouts := createLayouts true true;
              actionShowCurrentPath_isChecked := false;
              actionShowDetailsPanel_isChecked := true;
              headerTweaker_layout := "L1" |} in
  _currentLayout (changeLayout "L9" None s) = Some "L1"
  /\ _layoutName (changeLayout "L9" None s) = "L9".
Proof.
  cbv zeta.
  destruct (changeLayout_unknown_name
              {| _layoutName := "L1";
                 _currentLayout := Some "L1";
                 _layouts := createLayouts true true;
                 actionShowCurrentPath_isChecked := false;
                 actionShowDetailsPanel_isChecked := true;
                 headerTweaker_layout := "L1" |} "L9" None
              ltac:(discriminate) eq_refl) as (_ & _ & H3 & H4 & _).
  split; assumption.
Defined.

(** X23: the current-layout pointer never dangles and the map keeps
    its keys: [changeLayout] changes no layout name of the map, and if
    the current layout was one of the map (or 0) before, it is one of
    the map (or 0) afterwards. *)
Theorem changeLayout_pointer_valid (s : Layouts) (name : string)
    (sender : option string) :
  (forall key, _currentLayout s = Some key -> layoutOf key (_layouts s) <> None) ->
  let s' := changeLayout name sender s in
  map fst (_layouts s') = map fst (_layouts s)
  /\ (forall key, _currentLayout s' = Some key -> layoutOf key (_layouts s') <> None).
Proof.
  intros Hvalid. cbv zeta. unfold changeLayout.
  set (layoutName := if String.eqb name "" then _ else name).
  cbn [_currentLayout].
  set (s1 := {| _layoutName := layoutName; _currentLayout := _currentLayout s;
                _layouts := _layouts s;
                actionShowCurrentPath_isChecked := actionShowCurrentPath_isChecked s;
                actionShowDetailsPanel_isChecked := actionShowDetailsPanel_isChecked s;
                headerTweaker_layout := layoutName |}).
  set (s2 := match _currentLayout s with Some key => saveLayout key s1 | None => s1 end).
  assert (Hnames : map fst (_layouts s2) = map fst (_layouts s)).
  { subst s2. destruct (_currentLayout s) as [cur|];
      [exact (names_saveLayout cur s1) | reflexivity]. }
  assert (Hcur : _currentLayout s2 = _currentLayout s).
  { subst s2. destruct (_currentLayout s); reflexivity. }
  assert (Hkeep : forall key, layoutOf key (_layouts s) <> None ->
                              layoutOf key (_layouts s2) <> None).
  { intros key Hk. subst s2. destruct (_currentLayout s) as [cur|]; [|exact Hk].
    destruct (layoutOf key (_layouts s)) as [l|] eqn:Hl; [|congruence].
    destruct (String.eqb key cur) eqn:Hkc.
    - apply String.eqb_eq in Hkc. subst cur.
      rewrite (layoutOf_saveLayout_same key s1 l Hl). discriminate.
    - rewrite layoutOf_saveLayout_other;
        [change (layoutOf key (_layouts s) <> None); congruence|].
      now apply String.eqb_neq. }
  destruct (layoutOf layoutName (_layouts s2)) as [layout|] eqn:Hfound;
    cbn [_layouts _currentLayout applyLayout]; (split; [exact Hnames|]).
  - intros key [= <-]. now rewrite Hfound.
  - intros key Hkey. rewrite Hcur in Hkey. apply Hkeep, Hvalid, Hkey.
Qed.

Lemma changeLayout_pointer_valid_witness :
  let s := {| _layoutName := "";
              _currentLayout := None;
              _layouts := createLayouts true true;
              actionShowCurrentPath_isChecked := true;
              actionShowDetailsPanel_isChecked := true;
              headerTweaker_layout := "" |} in
  map fst (_layouts (changeLayout "L3" None s)) = ["L1"; "L2"; "L3"].
Proof.
  cbv zeta.
  refine (proj1 (changeLayout_pointer_valid _ "L3" None _)).
  intros key H. discriminate H.
Defined.

(** X24: the built-in layouts.  [createLayouts] makes [L1], [L2] and
    [L3] and no other.  On the layouts as it makes them, a
    [changeLayout] with the current-layout pointer still 0 (as it is
    in the constructor) overwrites no stored layout and shows the
    flags of the layout it switches to: the details panel is hidden
    for [L3] whatever a new layout has by default, and follows that
    default for [L1] and [L2]. *)
Theorem createLayouts_first_change (newCurrentPath newDetailsPanel : bool)
    (name : string) (s : Layouts) :
  _currentLayout s = None ->
  _layouts s = createLayouts newCurrentPath newDetailsPanel ->
  In name ["L1"; "L2"; "L3"] ->
  let s' := changeLayout name None s in
  map fst (_layouts s) = ["L1"; "L2"; "L3"]
  /\ _layouts s' = _layouts s
  /\ _currentLayout s' = Some name
  /\ actionShowCurrentPath_isChecked s' = newCurrentPath
  /\ actionShowDetailsPanel_isChecked s'
     = (if String.eqb name "L3" then false else newDetailsPanel).
Proof.
  intros Hcur Hl Hin. cbv zeta. unfold changeLayout. cbn [_currentLayout _layouts].
  rewrite Hcur, Hl. cbn [In] in Hin.
  decompose [or] Hin; subst; try contradiction; cbn; repeat split; reflexivity.
Qed.

Lemma createLayouts_first_change_witness :
  let s := {| _layoutName := "L2";
              _currentLayout := None;
              _layouts := createLayouts true true;
              actionShowCurrentPath_isChecked := true;
              actionShowDetailsPanel_isChecked := true;
              headerTweaker_layout := "" |} in
  actionShowDetailsPanel_isChecked (changeLayout "L3" None s) = false.
Proof.
  cbv zeta.
  refine (proj2 (proj2 (proj2 (proj2
            (createLayouts_first_change true true "L3"
               {| _layoutName := "L2";
                  _currentLayout := None;
                  _layouts := createLayouts true true;
                  actionShowCurrentPath_isChecked := true;
                  actionShowDetailsPanel_isChecked := true;
                  headerTweaker_layout := "" |} eq_refl eq_refl _))))).
  cbn. tauto.
Defined.

(** ** The directory dialog *)

(** X25: [askOpenDir] does nothing at all when the dialog is cancelled
    (an empty path).  With a path chosen it first resets the tree and
    hands it the cross-filesystems choice of the dialog, and only then
    opens the path, which empties the history and arms the warning. *)
Theorem askOpenDir_resets_first (isPkgUrl : string -> bool)
    (path : string) (cross : bool) (o : OpenOutcome) (w : MainWindow) :
  let w' := exec (askOpenDir isPkgUrl path cross o) w in
  (path = "" -> w' = w)
  /\ (path <> "" ->
      firstn 2 (callsSince w w') = [DirTree_reset; DirTree_setCrossFilesystems cross]
      /\ _historyButtons w' = HistoryButtons.empty
      /\ _enableDirPermissionsWarning w' = true).
Proof.
  cbv zeta. unfold askOpenDir, askOpenDir_with. rewrite exec_when. split.
  - intros ->. reflexivity.
  - intros Hp. apply String.eqb_neq in Hp. rewrite Hp. cbn [negb]. steps.
    match goal with
    | |- context [exec (openUrl isPkgUrl path o) ?W] =>
        destruct (openUrl_members isPkgUrl o path W) as (Hh & Ha & L & HL & _);
        set (w1 := exec (openUrl isPkgUrl path o) W) in *
    end.
    fields_in HL. split; [|split; assumption].
    rewrite (callsSince_app w w1
               (L ++ [HistoryButtons_clearHistory;
                      DirTree_setCrossFilesystems cross; DirTree_reset])).
    + rewrite rev_app_distr. reflexivity.
    + rewrite HL, <- app_assoc. reflexivity.
Qed.

Lemma askOpenDir_resets_first_witness :
  firstn 2 (callsSince dataLoaded
              (exec (askOpenDir pkgScheme "/home" true Opened) dataLoaded))
  = [DirTree_reset; DirTree_setCrossFilesystems true].
Proof.
  apply (proj2 (askOpenDir_resets_first pkgScheme "/home" true Opened dataLoaded)).
  discriminate.
Defined.
